(** * primitivesalesbot: a shallow embedding of [src/main.py]

    The bot polls a marketplace API for sales of one NFT contract, formats
    a tweet per sale and remembers the order hashes it has announced in
    [data/processed_sales.json].  This file embeds the decision logic of
    [get_eth_price], [fetch_recent_sales], [format_sale_message] and
    [process_new_sales] and states the properties of the specification
    about them.

    Modelling conventions.
    - Python [str] is [string]; one [ascii] stands for one character.  The
      operations [lower], [int], [len], slicing and the regular expression
      agree with Python on ASCII text, which is what contract addresses,
      order hashes and token ids are made of.  The two non-ASCII glyphs of
      the tweet template are written in UTF-8.
    - Python [float] is the binary64 type [float] of the kernel; [int] is [Z].
    - The dictionaries decoded from JSON are records with one [field] per
      key the program reads.  A field is absent, [null] or holds a value of
      the type the upstream schema gives it.
    - Exceptions are values of [exn]; the network, the clock, the image
      store and Twitter are oracles indexed by the number of external
      calls made so far.  Reading and writing the file succeed; [print]
      calls are not modelled. *)

From Stdlib Require Import String Ascii List ZArith Bool Arith Lia Floats DecimalString.
Import ListNotations.
Open Scope string_scope.

(** ** Python strings *)

Module Str.

Definition code (c : ascii) : nat := nat_of_ascii c.

Definition between (lo hi : nat) (c : ascii) : bool :=
  (lo <=? code c)%nat && (code c <=? hi)%nat.

Definition is_digit : ascii -> bool := between 48 57.
Definition is_upper : ascii -> bool := between 65 90.

(** The characters [int] skips around a number: space, \t, \n, \v, \f, \r. *)
Definition is_space (c : ascii) : bool := between 9 13 c || (code c =? 32)%nat.

Definition lower_char (c : ascii) : ascii :=
  if is_upper c then ascii_of_nat (code c + 32) else c.

Fixpoint lower (s : string) : string :=
  match s with
  | EmptyString => EmptyString
  | String c s' => String (lower_char c) (lower s')
  end.

(** [s[:n]] for [0 <= n]. *)
Fixpoint prefix (n : nat) (s : string) : string :=
  match n, s with
  | S n', String c s' => String c (prefix n' s')
  | _, _ => EmptyString
  end.

Fixpoint drop (n : nat) (s : string) : string :=
  match n, s with
  | S n', String _ s' => drop n' s'
  | _, _ => s
  end.

(** [s[-n:]] for [0 < n]. *)
Definition suffix (n : nat) (s : string) : string :=
  drop (String.length s - n) s.

Fixpoint lstrip (s : string) : string :=
  match s with
  | String c s' => if is_space c then lstrip s' else s
  | EmptyString => EmptyString
  end.

Fixpoint rev_onto (acc s : string) : string :=
  match s with
  | EmptyString => acc
  | String c s' => rev_onto (String c acc) s'
  end.

Definition rev (s : string) : string := rev_onto EmptyString s.

Definition strip (s : string) : string := rev (lstrip (rev (lstrip s))).

(** Substring test, Python's [needle in s]. *)
Fixpoint starts_with (p s : string) : bool :=
  match p, s with
  | EmptyString, _ => true
  | String a p', String b s' => Ascii.eqb a b && starts_with p' s'
  | String _ _, EmptyString => false
  end.

Fixpoint contains (needle s : string) : bool :=
  starts_with needle s ||
  match s with
  | EmptyString => false
  | String _ s' => contains needle s'
  end.

(** [str(z)] for a Python int. *)
Definition of_Z (z : Z) : string := NilZero.string_of_int (Z.to_int z).

End Str.

(** ** Built-ins on strings *)

(** The digits of [int(s)] after the sign: decimal digits, single
    underscores allowed between two digits. *)
Fixpoint int_digits (acc : Z) (after_digit : bool) (s : string) : option Z :=
  match s with
  | EmptyString => if after_digit then Some acc else None
  | String c s' =>
      if Str.is_digit c
      then int_digits (10 * acc + Z.of_nat (Str.code c - 48)) true s'
      else if Ascii.eqb c "_" && after_digit
           then int_digits acc false s'
           else None
  end.

Fixpoint count_digits (s : string) : nat :=
  match s with
  | EmptyString => 0
  | String c s' => if Str.is_digit c then S (count_digits s') else count_digits s'
  end.

(** [sys.int_info.default_max_str_digits]: [int] refuses longer numerals. *)
Definition max_str_digits : nat := 4300.

(** [int(s)] in base 10; [None] stands for [ValueError]. *)
Definition py_int (s : string) : option Z :=
  let stripped := Str.strip s in
  if (max_str_digits <? count_digits stripped)%nat then None
  else
    match stripped with
    | String "+" r => int_digits 0 false r
    | String "-" r => option_map Z.opp (int_digits 0 false r)
    | r => int_digits 0 false r
    end.

Fixpoint take_digits (s : string) : string :=
  match s with
  | String c s' => if Str.is_digit c then String c (take_digits s') else EmptyString
  | EmptyString => EmptyString
  end.

(** [re.search(r'#(\d+)', s)]: group 1 of the leftmost match, if any. *)
Fixpoint search_hash_digits (s : string) : option string :=
  match s with
  | EmptyString => None
  | String c s' =>
      if Ascii.eqb c "#"
      then match take_digits s' with
           | EmptyString => search_hash_digits s'
           | d => Some d
           end
      else search_hash_digits s'
  end.

(** Truth value of a [str]-or-[None]. *)
Definition truthy (v : option string) : bool :=
  match v with
  | Some (String _ _) => true
  | _ => false
  end.

(** What an f-string prints for a [str]-or-[None]. *)
Definition py_str (v : option string) : string :=
  match v with
  | Some s => s
  | None => "None"
  end.

(** ** Numbers *)

(** A JSON number decodes to an [int] or a [float]. *)
Inductive num : Type :=
| NInt (z : Z)
| NFloat (f : float).

Inductive exn : Type :=
| AttributeError
| TypeError
| KeyError
| ValueError
| NameError
| OverflowError
| RequestException.

Inductive res (A : Type) : Type :=
| Ok (a : A)
| Raise (e : exn).
Arguments Ok {A} a.
Arguments Raise {A} e.

(** [float(z)]: round to nearest even, [OverflowError] beyond the range. *)
Definition float_of_Z (z : Z) : res float :=
  match binary_normalize prec emax z 0 false with
  | S754_infinity _ => Raise OverflowError
  | sf => Ok (SF2Prim sf)
  end.

Definition py_float (n : num) : res float :=
  match n with
  | NInt z => float_of_Z z
  | NFloat f => Ok f
  end.

Definition num_truthy (n : num) : bool :=
  match n with
  | NInt z => negb (z =? 0)%Z
  | NFloat f => negb (PrimFloat.eqb f 0)
  end.

(** [x * n] for a float [x]. *)
Definition float_mul_num (x : float) (n : num) : res float :=
  match py_float n with
  | Ok y => Ok (PrimFloat.mul x y)
  | Raise e => Raise e
  end.

(** *** Fixed-point formatting, [format(x, '.<digits>f')] and [',.<digits>f'] *)

Definition round_half_even (n d : Z) : Z :=
  let q := (n / d)%Z in
  match (2 * (n mod d) ?= d)%Z with
  | Lt => q
  | Gt => (q + 1)%Z
  | Eq => if Z.even q then q else (q + 1)%Z
  end.

(** [m * 2^e * 10^digits], correctly rounded to an integer. *)
Definition scaled (digits : nat) (m : positive) (e : Z) : Z :=
  let n := (Zpos m * 10 ^ Z.of_nat digits)%Z in
  if (0 <=? e)%Z then (n * 2 ^ e)%Z else round_half_even n (2 ^ (- e)).

Fixpoint zeros (n : nat) (s : string) : string :=
  match n with
  | O => s
  | S n' => String "0" (zeros n' s)
  end.

Definition zero_pad (width : nat) (s : string) : string :=
  zeros (width - String.length s) s.

(** Thousands separators: a comma before every group of three digits
    counted from the right. *)
Fixpoint group3 (s : string) : string :=
  match s with
  | EmptyString => EmptyString
  | String c s' =>
      let rest := group3 s' in
      if ((0 <? String.length s') && (String.length s' mod 3 =? 0))%nat
      then String c (String "," rest)
      else String c rest
  end.

Definition fixed_digits (comma : bool) (digits : nat) (n : Z) : string :=
  let unit := (10 ^ Z.of_nat digits)%Z in
  let whole := Str.of_Z (n / unit) in
  let frac := zero_pad digits (Str.of_Z (n mod unit)) in
  (if comma then group3 whole else whole) ++ "." ++ frac.

Definition format_fixed (comma : bool) (digits : nat) (x : float) : string :=
  match Prim2SF x with
  | S754_nan => "nan"
  | S754_infinity s => if s then "-inf" else "inf"
  | S754_zero s => (if s then "-" else "") ++ fixed_digits comma digits 0
  | S754_finite s m e =>
      (if s then "-" else "") ++ fixed_digits comma digits (scaled digits m e)
  end.

(** ** Dictionaries decoded from JSON *)

Inductive field (A : Type) : Type :=
| Absent
| Null
| Present (a : A).
Arguments Absent {A}.
Arguments Null {A}.
Arguments Present {A} a.

(** [d.get(k)]: Python's [None] when the key is absent or holds [null]. *)
Definition get {A} (f : field A) : option A :=
  match f with
  | Present a => Some a
  | _ => None
  end.

(** [d.get(k, default)]. *)
Definition get_or {A} (default : A) (f : field A) : option A :=
  match f with
  | Absent => Some default
  | Null => None
  | Present a => Some a
  end.

(** [k in d]. *)
Definition has {A} (f : field A) : bool :=
  match f with
  | Absent => false
  | _ => true
  end.

(** [d[k]]. *)
Definition item {A} (f : field A) : res (option A) :=
  match f with
  | Absent => Raise KeyError
  | Null => Ok None
  | Present a => Ok (Some a)
  end.

(** The value stored under a key of a dictionary literal. *)
Definition store {A} (v : option A) : field A :=
  match v with
  | Some a => Present a
  | None => Null
  end.

(** Using a value that may be [None] as an object: [err] when it is. *)
Definition deref {A} (err : exn) (v : option A) : res A :=
  match v with
  | Some a => Ok a
  | None => Raise err
  end.

Record collection : Type := {
  c_id : field string;
  c_name : field string
}.

Record token : Type := {
  t_contract : field string;
  t_tokenId : field string;
  t_name : field string;
  t_collection : field collection
}.

Record currency : Type := { symbol : field string }.

Record amount : Type := { a_decimal : field num }.

Record price : Type := {
  p_currency : field currency;
  p_amount : field amount
}.

(** The common shape of a sale, whichever endpoint it came from. *)
Record sale : Type := {
  s_id : field string;
  s_orderHash : field string;
  s_orderSide : field string;
  s_token : field token;
  s_price : field price;
  s_timestamp : field Z
}.

(** The empty dictionary, at each of the types above. *)
Definition no_collection : collection := {| c_id := Absent; c_name := Absent |}.
Definition no_token : token :=
  {| t_contract := Absent; t_tokenId := Absent; t_name := Absent; t_collection := Absent |}.
Definition no_amount : amount := {| a_decimal := Absent |}.
Definition no_price : price := {| p_currency := Absent; p_amount := Absent |}.
Definition no_sale : sale :=
  {| s_id := Absent; s_orderHash := Absent; s_orderSide := Absent;
     s_token := Absent; s_price := Absent; s_timestamp := Absent |}.

Record activity : Type := {
  act_type : field string;
  act_id : field string;
  act_token : field token;
  act_contract : field string;
  act_price : field price
}.

Record fill : Type := {
  f_id : field string;
  f_orderHash : field string;
  f_contract : field string;
  f_tokenId : field string;
  f_tokenName : field string;
  f_collectionName : field string;
  f_price : field num;
  f_createdAt : field string
}.

Record sales_page : Type := { sales : field (list sale) }.
Record activity_page : Type := { activities : field (list activity) }.
Record fills_page : Type := { fills : field (list fill) }.

(** The two shapes the price sources answer with. *)
Record coingecko : Type := { usd : field num }.
Record price_data : Type := {
  ethereum : field coingecko;
  USD : field num
}.

(** ** The outside world *)

(** A [requests] response; [json = None] when [response.json()] raises. *)
Record response (A : Type) : Type := {
  status_code : Z;
  json : option A
}.
Arguments status_code {A} r.
Arguments json {A} r.

(** The value of [sale.get("orderHash", "")]: a [str] or [None]. *)
Definition key : Type := option string.

Definition key_eqb (a b : key) : bool :=
  match a, b with
  | Some x, Some y => String.eqb x y
  | None, None => true
  | _, _ => false
  end.

(** [k in l] for a list of keys. *)
Definition key_in (k : key) (l : list key) : bool := existsb (key_eqb k) l.

(** What the program can change or observe: the number of external calls
    made, the contents of [data/processed_sales.json] and the texts posted.
    [attempts] is a history variable: the key of every sale handed to
    [post_to_twitter], in order, with the outcome. *)
Record world : Type := {
  calls : nat;
  processed_sales_file : list key;
  timeline : list string;
  attempts : list (key * bool)
}.

(** The answers of the services, by the number of external calls made
    before; [None] where [requests.get] raises. *)
Record outside : Type := {
  price_source : nat -> string -> option (response price_data);
  sales_v6 : nat -> option (response sales_page);
  tokens_activity_v5 : nat -> option (response activity_page);
  orders_fills_v6 : nat -> option (response fills_page);
  (** [int(datetime.fromisoformat(s).timestamp())], [None] for [ValueError] *)
  fromisoformat : string -> option Z;
  (** [int(datetime.now().timestamp())] *)
  clock : nat -> Z;
  (** the path [download_nft_image] returns *)
  nft_image : nat -> option string -> option string -> option string;
  (** whether [post_to_twitter] gets its tweet through *)
  twitter_accepts : nat -> string -> option string -> bool
}.

(** ** State and exceptions *)

Definition M (A : Type) : Type := world -> res A * world.

Definition ret {A} (a : A) : M A := fun w => (Ok a, w).

Definition bind {A B} (m : M A) (k : A -> M B) : M B :=
  fun w =>
    match m w with
    | (Ok a, w') => k a w'
    | (Raise e, w') => (Raise e, w')
    end.

Definition lift {A} (r : res A) : M A := fun w => (r, w).

(** [try: body except Exception: handler]. *)
Definition try_except {A} (body : M A) (handler : exn -> M A) : M A :=
  fun w =>
    match body w with
    | (Ok a, w') => (Ok a, w')
    | (Raise e, w') => handler e w'
    end.

Declare Scope py_scope.
Delimit Scope py_scope with py.
Notation "x <- m ;; k" := (bind m (fun x => k))
  (at level 100, m at next level, right associativity) : py_scope.
Notation "m ;;; k" := (bind m (fun _ => k))
  (at level 100, right associativity) : py_scope.
Open Scope py_scope.

Definition tick (w : world) : world :=
  {| calls := S (calls w);
     processed_sales_file := processed_sales_file w;
     timeline := timeline w;
     attempts := attempts w |}.

(** [requests.get(url, ...)] against one endpoint. *)
Definition requests_get {A} (endpoint : nat -> option (response A)) : M (response A) :=
  fun w => (deref RequestException (endpoint (calls w)), tick w).

Definition response_json {A} (r : response A) : M A :=
  lift (deref ValueError (json r)).

Definition load_processed_sales : M (list key) :=
  fun w => (Ok (processed_sales_file w), w).

Definition save_processed_sales (processed_sales : list key) : M unit :=
  fun w =>
    (Ok tt,
     {| calls := calls w;
        processed_sales_file := processed_sales;
        timeline := timeline w;
        attempts := attempts w |}).

(** ** The program *)

Definition newline : string := String (ascii_of_nat 10) EmptyString.

(** [s.replace('Z', '+00:00')]. *)
Fixpoint replace_Z (s : string) : string :=
  match s with
  | EmptyString => EmptyString
  | String c s' =>
      if Ascii.eqb c "Z" then "+00:00" ++ replace_Z s' else String c (replace_Z s')
  end.

(** Truth value of what [get_eth_price] returns. *)
Definition price_truthy (p : option num) : bool :=
  match p with
  | Some n => num_truthy n
  | None => false
  end.

Section Bot.

(** Module-level names.  [CONTRACT_ADDRESS] comes from the environment;
    [COLLECTION_SLUG] is used by [fetch_recent_sales] and is [None] when
    the module does not bind it, as in [src/main.py]. *)
Variable CONTRACT_ADDRESS : string.
Variable COLLECTION_SLUG : option string.
Variable out : outside.

Definition apis : list string :=
  [ "https://api.coingecko.com/api/v3/simple/price?ids=ethereum&vs_currencies=usd";
    "https://min-api.cryptocompare.com/data/price?fsym=ETH&tsyms=USD" ].

(** The body of the [if response.status_code == 200] branch of
    [get_eth_price]: [Some price] where the source returns [price],
    [None] where it says [continue]. *)
Definition read_price (data : price_data) : res (option (option num)) :=
  if has (ethereum data) then
    match item (ethereum data) with
    | Raise e => Raise e
    | Ok e =>
        match deref TypeError e with
        | Raise x => Raise x
        | Ok c =>
            match item (usd c) with
            | Raise x => Raise x
            | Ok p => Ok (Some p)
            end
        end
    end
  else if has (USD data) then
    match item (USD data) with
    | Raise e => Raise e
    | Ok p => Ok (Some p)
    end
  else Ok None.

Definition fallback_price : num := NFloat 1825.

Fixpoint get_eth_price_from (urls : list string) : M (option num) :=
  match urls with
  | [] => ret (Some fallback_price)
  | api_url :: rest =>
      found <-
        try_except
          (response <- requests_get (fun n => price_source out n api_url) ;;
           if (status_code response =? 200)%Z
           then data <- response_json response ;; lift (read_price data)
           else ret None)
          (fun _ => ret None) ;;
      match found with
      | Some price => ret price
      | None => get_eth_price_from rest
      end
  end.

Definition get_eth_price : M (option num) := get_eth_price_from apis.

(** The guard both [format_sale_message] and [process_new_sales] apply:
    [contract and contract.lower() != CONTRACT_ADDRESS.lower()]. *)
Definition other_contract (contract : option string) : bool :=
  truthy contract
  && negb (String.eqb (Str.lower (py_str contract)) (Str.lower CONTRACT_ADDRESS)).

(** [f"{token_id[:4]}...{token_id[-4:]}" if len(token_id) > 8 else token_id]. *)
Definition shorten (t : string) : string :=
  if (8 <? String.length t)%nat
  then Str.prefix 4 t ++ "..." ++ Str.suffix 4 t
  else t.

(** The "Handle token ID formatting" block of [format_sale_message]. *)
Definition display_token_id (token_id token_name : option string) : option string :=
  if truthy token_id then
    let t := py_str token_id in
    match py_int t with
    | Some int_token_id => Some (Str.of_Z int_token_id)
    | None =>
        if (10 <? String.length t)%nat then
          if truthy token_name then
            match search_hash_digits (py_str token_name) with
            | Some digits => Some digits
            | None => token_name
            end
          else Some (shorten t)
        else token_id
    end
  else token_id.

(** [float(price_data.get("amount", {}).get("decimal", 0))], given the
    amount dictionary. *)
Definition decimal_of (a : amount) : res float :=
  match get_or (NInt 0) (a_decimal a) with
  | Some n => py_float n
  | None => Raise TypeError
  end.

Definition is_bid (s : sale) : bool :=
  match get (s_orderSide s) with
  | Some side => String.eqb side "bid"
  | None => false
  end.

Definition render (nft_collection : string) (display_id : option string)
    (action_verb : string) (eth_amount : float) (usd_formatted : string)
    (contract token_id : option string) : string :=
  nft_collection ++ " #" ++ py_str display_id ++ " " ++ action_verb ++ " "
    ++ format_fixed false 4 eth_amount ++ " Ξ [" ++ usd_formatted ++ "]"
    ++ newline ++ newline
    ++ "⤷https://opensea.io/assets/base/" ++ py_str contract ++ "/" ++ py_str token_id.

Definition format_sale_message (s : sale) : M (option string) :=
  try_except
    (tok <- lift (deref AttributeError (get_or no_token (s_token s))) ;;
     let token_id := get (t_tokenId tok) in
     let contract := get (t_contract tok) in
     if other_contract contract then ret None
     else
       let token_name := get (t_name tok) in
       coll <- lift (deref AttributeError (get_or no_collection (t_collection tok))) ;;
       let collection_name := get (c_name coll) in
       let display_id := display_token_id token_id token_name in
       price_data <- lift (deref AttributeError (get_or no_price (s_price s))) ;;
       amt <- lift (deref AttributeError (get_or no_amount (p_amount price_data))) ;;
       eth_amount <- lift (decimal_of amt) ;;
       eth_price <- get_eth_price ;;
       usd_formatted <-
         match eth_price with
         | Some rate =>
             if price_truthy eth_price
             then usd_amount <- lift (float_mul_num eth_amount rate) ;;
                  ret ("$" ++ format_fixed true 2 usd_amount)
             else ret "$???"
         | None => ret "$???"
         end ;;
       let nft_collection :=
         if truthy collection_name then py_str collection_name else "Primitive" in
       let action_verb := if is_bid s then "offer accepted for" else "bought for" in
       ret (Some (render nft_collection display_id action_verb eth_amount
                    usd_formatted contract token_id)))
    (fun _ => ret None).

(** *** Sale discovery *)

Definition fetch_sales_with_params : M (list sale) :=
  try_except
    (response <- requests_get (sales_v6 out) ;;
     if (status_code response =? 200)%Z
     then data <- response_json response ;;
          (* [len(sales)] raises on [None] *)
          lift (deref TypeError (get_or [] (sales data)))
     else ret [])
    (fun _ => ret []).

Definition sale_of_activity (a : activity) : res sale :=
  match deref AttributeError (get_or no_token (act_token a)) with
  | Raise e => Raise e
  | Ok tok =>
      Ok {| s_id := store (get (act_id a));
            s_orderHash := Absent;
            s_orderSide := Present "ask";
            s_token := Present {| t_contract := store (get (act_contract a));
                                  t_tokenId := store (get (t_tokenId tok));
                                  t_name := Absent;
                                  t_collection := Absent |};
            s_price := store (get (act_price a));
            s_timestamp := Absent |}
  end.

Definition is_sale (a : activity) : bool :=
  match get (act_type a) with
  | Some ty => String.eqb ty "sale"
  | None => false
  end.

Fixpoint convert_activities (l : list activity) : res (list sale) :=
  match l with
  | [] => Ok []
  | a :: rest =>
      if is_sale a then
        match sale_of_activity a with
        | Raise e => Raise e
        | Ok s =>
            match convert_activities rest with
            | Raise e => Raise e
            | Ok converted => Ok (s :: converted)
            end
        end
      else convert_activities rest
  end.

(** The token-activity block: [Some l] where the source returns [l],
    [None] where control leaves the [try] statement. *)
Definition activity_strategy : M (option (list sale)) :=
  try_except
    (response <- requests_get (tokens_activity_v5 out) ;;
     if (status_code response =? 200)%Z
     then data <- response_json response ;;
          activities <- lift (deref TypeError (get_or [] (activities data))) ;;
          converted_sales <- lift (convert_activities activities) ;;
          match converted_sales with
          | [] => ret None
          | _ => ret (Some converted_sales)
          end
     else ret None)
    (fun _ => ret None).

(** [fill.get("contract") == CONTRACT_ADDRESS]. *)
Definition for_our_contract (f : fill) : bool :=
  match get (f_contract f) with
  | Some c => String.eqb c CONTRACT_ADDRESS
  | None => false
  end.

Definition now : M Z := fun w => (Ok (clock out (calls w)), tick w).

(** The dictionary literal of the fills block; its entries are
    evaluated in the order they are written. *)
Definition sale_of_fill (f : fill) : M sale :=
  slug <- lift (deref NameError COLLECTION_SLUG) ;;
  let collection_name :=
    if truthy (get (f_collectionName f)) then py_str (get (f_collectionName f))
    else "Primitives" in
  decimal <- lift (match get_or (NInt 0) (f_price f) with
                   | Some n => py_float n
                   | None => Raise TypeError
                   end) ;;
  timestamp <-
    (if truthy (get (f_createdAt f))
     then lift (deref ValueError
                  (fromisoformat out (replace_Z (py_str (get (f_createdAt f))))))
     else now) ;;
  ret {| s_id := store (get (f_id f));
         s_orderHash := store (get (f_orderHash f));
         s_orderSide := Present "bid";
         s_token := Present {| t_contract := store (get (f_contract f));
                               t_tokenId := store (get (f_tokenId f));
                               t_name := store (get (f_tokenName f));
                               t_collection :=
                                 Present {| c_id := Present slug;
                                            c_name := Present collection_name |} |};
         s_price := Present {| p_currency := Present {| symbol := Present "ETH" |};
                               p_amount := Present {| a_decimal := Present (NFloat decimal) |} |};
         s_timestamp := Present timestamp |}.

Fixpoint convert_fills (l : list fill) : M (list sale) :=
  match l with
  | [] => ret []
  | f :: rest =>
      if for_our_contract f then
        s <- sale_of_fill f ;;
        converted <- convert_fills rest ;;
        ret (s :: converted)
      else convert_fills rest
  end.

(** The order-fills block, with the same convention. *)
Definition fills_strategy : M (option (list sale)) :=
  try_except
    (response <- requests_get (orders_fills_v6 out) ;;
     if (status_code response =? 200)%Z
     then data <- response_json response ;;
          fills <- lift (deref TypeError (get_or [] (fills data))) ;;
          converted_sales <- convert_fills fills ;;
          match converted_sales with
          | [] => ret None
          | _ => ret (Some converted_sales)
          end
     else ret None)
    (fun _ => ret None).

Definition fetch_recent_sales (include_bids : bool) : M (list sale) :=
  sales <- fetch_sales_with_params ;;
  match sales with
  | _ :: _ => ret sales
  | [] =>
      from_activity <- activity_strategy ;;
      match from_activity with
      | Some converted_sales => ret converted_sales
      | None =>
          if include_bids then
            from_fills <- fills_strategy ;;
            match from_fills with
            | Some converted_sales => ret converted_sales
            | None => ret []
            end
          else ret []
      end
  end.

(** *** The poll cycle *)

Definition download_nft_image (token_id contract_address : option string)
  : M (option string) :=
  fun w => (Ok (nft_image out (calls w) token_id contract_address), tick w).

Definition post_to_twitter (message : string) (image_path : option string) : M bool :=
  fun w =>
    let posted := twitter_accepts out (calls w) message image_path in
    (Ok posted,
     {| calls := S (calls w);
        processed_sales_file := processed_sales_file w;
        timeline := if posted then (timeline w ++ [message])%list else timeline w;
        attempts := attempts w |}).

Definition record_attempt (sale_id : key) (success : bool) : M unit :=
  fun w =>
    (Ok tt,
     {| calls := calls w;
        processed_sales_file := processed_sales_file w;
        timeline := timeline w;
        attempts := (attempts w ++ [(sale_id, success)])%list |}).

(** The local variables the loop of [process_new_sales] updates. *)
Definition locals : Type := (list key * nat)%type.

(** One iteration of [for sale in recent_sales]. *)
Definition process_sale (s : sale) (st : locals) : M locals :=
  let '(processed_sales, sales_processed) := st in
  let sale_id := get_or "" (s_orderHash s) in
  if key_in sale_id processed_sales then ret st
  else
    tok <- lift (deref AttributeError (get_or no_token (s_token s))) ;;
    let token_id := get (t_tokenId tok) in
    let contract_address := get (t_contract tok) in
    if other_contract contract_address then ret st
    else
      message <- format_sale_message s ;;
      if truthy message then
        image_path <- download_nft_image token_id contract_address ;;
        success <- post_to_twitter (py_str message) image_path ;;
        record_attempt sale_id success ;;;
        if success then
          let processed_sales := (processed_sales ++ [sale_id])%list in
          save_processed_sales processed_sales ;;;
          ret (processed_sales, S sales_processed)
        else ret st
      else ret st.

Fixpoint process_sales (recent_sales : list sale) (st : locals) : M locals :=
  match recent_sales with
  | [] => ret st
  | s :: rest => st' <- process_sale s st ;; process_sales rest st'
  end.

Definition process_new_sales : M nat :=
  processed_sales <- load_processed_sales ;;
  recent_sales <- fetch_recent_sales true ;;
  match recent_sales with
  | [] => ret 0
  | _ =>
      st <- process_sales recent_sales (processed_sales, 0) ;;
      ret (snd st)
  end.

(** The first [n] iterations of the [while True] loop of [main]; the
    two sleeps change nothing the model observes. *)
Fixpoint main (n : nat) : M unit :=
  match n with
  | O => ret tt
  | S n' => process_new_sales ;;; main n'
  end.

End Bot.

(** ** A sample configuration *)

Definition default_contract : string := "0x424d781e0163b5a42ca2f27d036c2d5c561022c3".

(** Every request fails, the clock stands still, Twitter takes every tweet. *)
Definition offline : outside :=
  {| price_source := fun _ _ => None;
     sales_v6 := fun _ => None;
     tokens_activity_v5 := fun _ => None;
     orders_fills_v6 := fun _ => None;
     fromisoformat := fun _ => None;
     clock := fun _ => 0%Z;
     nft_image := fun _ _ _ => None;
     twitter_accepts := fun _ _ _ => true |}.

Definition fresh : world :=
  {| calls := 0; processed_sales_file := []; timeline := []; attempts := [] |}.

Definition a_token (token_id : string) : token :=
  {| t_contract := Present default_contract;
     t_tokenId := Present token_id;
     t_name := Absent;
     t_collection := Absent |}.

Definition a_price (eth : float) : price :=
  {| p_currency := Absent;
     p_amount := Present {| a_decimal := Present (NFloat eth) |} |}.

Definition a_sale (order_hash : field string) (token_id : string) (eth : float) : sale :=
  {| s_id := Absent;
     s_orderHash := order_hash;
     s_orderSide := Present "ask";
     s_token := Present (a_token token_id);
     s_price := Present (a_price eth);
     s_timestamp := Absent |}.

(** * Properties *)

(** ** The monad *)

Lemma bind_ok {A B} (m : M A) (k : A -> M B) w a w' :
  m w = (Ok a, w') -> bind m k w = k a w'.
Proof. intros H. unfold bind. now rewrite H. Qed.

Lemma bind_raise {A B} (m : M A) (k : A -> M B) w e w' :
  m w = (Raise e, w') -> bind m k w = (Raise e, w').
Proof. intros H. unfold bind. now rewrite H. Qed.

(** ** Display token id *)

(** The precedence as the specification words it: the token name and the
    truncation are tried whatever the length of the raw id. *)
Definition display_id_flat (t : string) (name : option string) : string :=
  match py_int t with
  | Some z => Str.of_Z z
  | None =>
      match (if (10 <? String.length t)%nat && truthy name
             then search_hash_digits (py_str name) else None) with
      | Some digits => digits
      | None =>
          if truthy name then py_str name
          else if (8 <? String.length t)%nat
               then Str.prefix 4 t ++ "..." ++ Str.suffix 4 t
               else t
      end
  end.

(** A short id that is not a number is shown as it is, name or no name,
    where the flat precedence shows the name or a truncation. *)
Lemma display_id_flat_differs :
  display_token_id (Some "abc") (Some "Primitives #7") = Some "abc"
  /\ display_id_flat "abc" (Some "Primitives #7") = "Primitives #7"
  /\ display_token_id (Some "abcdefghi") None = Some "abcdefghi"
  /\ display_id_flat "abcdefghi" None = "abcd...fghi".
Proof. repeat split; reflexivity. Qed.

(** C4, as the code has it: (a) an id [int] accepts shows as its decimal
    string; otherwise, for a raw id of more than 10 characters, (b) the
    digits after '#' in the token name, (c) else the name when there is
    one, (d) else first4...last4; (e) a raw id of at most 10 characters
    shows unmodified. *)
Theorem display_token_id_precedence (t : string) (name : option string) :
  (forall z, py_int t = Some z -> display_token_id (Some t) name = Some (Str.of_Z z))
  /\ (forall digits,
        py_int t = None -> (10 < String.length t)%nat -> truthy name = true ->
        search_hash_digits (py_str name) = Some digits ->
        display_token_id (Some t) name = Some digits)
  /\ (py_int t = None -> (10 < String.length t)%nat -> truthy name = true ->
      search_hash_digits (py_str name) = None ->
      display_token_id (Some t) name = name)
  /\ (py_int t = None -> (10 < String.length t)%nat -> truthy name = false ->
      display_token_id (Some t) name = Some (Str.prefix 4 t ++ "..." ++ Str.suffix 4 t))
  /\ (py_int t = None -> (String.length t <= 10)%nat ->
      display_token_id (Some t) name = Some t).
Proof.
  assert (E : py_int "" = None) by reflexivity.
  unfold display_token_id.
  destruct t as [|c t'].
  - simpl truthy. cbv iota. rewrite E.
    repeat split; intros; try discriminate; try reflexivity;
      simpl in *; lia.
  - set (t := String c t'). simpl truthy. cbv iota. simpl py_str.
    repeat split.
    + intros z Hz. now rewrite Hz.
    + intros d Hn Hl Ht Hs. rewrite Hn.
      apply Nat.ltb_lt in Hl. now rewrite Hl, Ht, Hs.
    + intros Hn Hl Ht Hs. rewrite Hn.
      apply Nat.ltb_lt in Hl. now rewrite Hl, Ht, Hs.
    + intros Hn Hl Ht. rewrite Hn.
      assert (H8 : (8 <? String.length t)%nat = true) by (apply Nat.ltb_lt; lia).
      apply Nat.ltb_lt in Hl. rewrite Hl, Ht. unfold shorten. now rewrite H8.
    + intros Hn Hl. rewrite Hn.
      assert (H10 : (10 <? String.length t)%nat = false) by (apply Nat.ltb_ge; lia).
      now rewrite H10.
Qed.

(** The three ids the specification lists. *)
Lemma display_token_id_samples :
  display_token_id (Some "00042") None = Some "42"
  /\ display_token_id (Some "0xfeedfacecafe") (Some "Primitives #7") = Some "7"
  /\ display_token_id (Some "0123456789abcdefghij") None = Some "0123...ghij".
Proof.
  split; [|split].
  - apply (proj1 (display_token_id_precedence "00042" None) 42%Z). reflexivity.
  - apply (proj1 (proj2 (display_token_id_precedence "0xfeedfacecafe"
                           (Some "Primitives #7"))) "7");
      try reflexivity. simpl. lia.
  - apply (proj1 (proj2 (proj2 (proj2 (display_token_id_precedence
                                         "0123456789abcdefghij" None)))));
      try reflexivity. simpl. lia.
Defined.

(** ** The contract check of the formatter *)

(** [sale.get("token", {}).get("contract")], where it does not raise. *)
Definition sale_contract (s : sale) : option string :=
  match get_or no_token (s_token s) with
  | Some tok => get (t_contract tok)
  | None => None
  end.

Lemma other_contract_true_iff (ca : string) (contract : option string) :
  other_contract ca contract = true <->
  exists c, contract = Some c /\ c <> "" /\ Str.lower c <> Str.lower ca.
Proof.
  unfold other_contract. rewrite andb_true_iff, negb_true_iff, String.eqb_neq.
  split.
  - intros [Ht Hl]. destruct contract as [[|a c]|]; try discriminate.
    exists (String a c). repeat split; [discriminate | exact Hl].
  - intros (c & -> & Hc & Hl). split; [|exact Hl].
    destruct c; [contradiction | reflexivity].
Qed.

(** C9: a sale whose contract address is there (a non-empty string) and
    differs from the configured one after lower-casing both is answered
    with [None], before any price is fetched; a contract that is absent or
    equal up to case does not trigger the check. *)
Theorem format_sale_message_contract_check
    (ca : string) (out : outside) (s : sale) (w : world) :
  (forall c, sale_contract s = Some c -> c <> "" ->
             Str.lower c <> Str.lower ca ->
             format_sale_message ca out s w = (Ok None, w))
  /\ (forall contract,
        contract = None \/ Str.lower (py_str contract) = Str.lower ca ->
        other_contract ca contract = false).
Proof.
  split.
  - intros c Hc Hne Hl. unfold sale_contract in Hc.
    unfold format_sale_message, try_except, bind, lift, ret.
    destruct (get_or no_token (s_token s)) as [tok|]; [|discriminate].
    simpl. rewrite Hc.
    assert (Ho : other_contract ca (Some c) = true).
    { apply other_contract_true_iff. exists c. auto. }
    now rewrite Ho.
  - intros contract [-> | Hl]; [reflexivity|].
    unfold other_contract. rewrite Hl, String.eqb_refl. simpl.
    apply andb_false_r.
Qed.

Lemma format_sale_message_contract_check_sample :
  format_sale_message default_contract offline
    {| s_id := Absent; s_orderHash := Present "0x01"; s_orderSide := Absent;
       s_token := Present {| t_contract := Present "0xDEADBEEF";
                             t_tokenId := Present "7";
                             t_name := Absent; t_collection := Absent |};
       s_price := Absent; s_timestamp := Absent |} fresh
  = (Ok None, fresh)
  /\ other_contract default_contract
       (Some "0x424D781E0163B5A42CA2F27D036C2D5C561022C3") = false.
Proof.
  split.
  - apply (proj1 (format_sale_message_contract_check default_contract offline _ fresh)
             "0xDEADBEEF"); [reflexivity | discriminate | discriminate].
  - apply (proj2 (format_sale_message_contract_check default_contract offline
                    no_sale fresh)).
    right. reflexivity.
Defined.

(** ** The fiat amount when no price source answers *)

(** A source that gives no price: the request raises, the status is not
    200, the body is not JSON, or the body has neither shape. *)
Definition source_fails (r : option (response price_data)) : bool :=
  match r with
  | None => true
  | Some resp =>
      if (status_code resp =? 200)%Z then
        match json resp with
        | None => true
        | Some data =>
            match read_price data with
            | Ok (Some _) => false
            | _ => true
            end
        end
      else true
  end.

(** Both sources fail when [get_eth_price] is called in world [w]. *)
Definition all_sources_fail (out : outside) (w : world) : Prop :=
  source_fails (price_source out (calls w) (nth 0 apis "")) = true
  /\ source_fails (price_source out (S (calls w)) (nth 1 apis "")) = true.

Lemma try_source_fails (out : outside) (url : string) (w : world) :
  source_fails (price_source out (calls w) url) = true ->
  try_except
    (response <- requests_get (fun n => price_source out n url) ;;
     if (status_code response =? 200)%Z
     then data <- response_json response ;; lift (read_price data)
     else ret None)
    (fun _ => ret None) w = (Ok None, tick w).
Proof.
  unfold source_fails, try_except, bind, requests_get, response_json, lift, ret.
  destruct (price_source out (calls w) url) as [resp|]; simpl; [|reflexivity].
  destruct (status_code resp =? 200)%Z; [|reflexivity].
  destruct (json resp) as [data|]; simpl; [|reflexivity].
  destruct (read_price data) as [[p|]|e]; intros H;
    try discriminate; reflexivity.
Qed.

Lemma get_eth_price_fallback (out : outside) (w : world) :
  all_sources_fail out w ->
  get_eth_price out w = (Ok (Some fallback_price), tick (tick w)).
Proof.
  intros [H0 H1]. unfold get_eth_price, apis in *. simpl in H0, H1.
  simpl get_eth_price_from.
  rewrite (bind_ok _ _ _ _ _ (try_source_fails out _ w H0)).
  rewrite (bind_ok _ _ _ _ _ (try_source_fails out _ (tick w) H1)).
  reflexivity.
Qed.

Lemma contains_dot_app (a b : string) : Str.contains "." (a ++ "." ++ b) = true.
Proof.
  induction a as [|c a IH]; simpl.
  - reflexivity.
  - simpl in IH. rewrite IH. apply orb_true_r.
Qed.

Lemma contains_dot_cons (c : ascii) (s : string) :
  Str.contains "." s = true -> Str.contains "." (String c s) = true.
Proof. intros H. simpl. simpl in H. rewrite H. apply orb_true_r. Qed.

(** A formatted number is never the three question marks. *)
Lemma format_fixed_not_placeholder (comma : bool) (digits : nat) (x : float) :
  format_fixed comma digits x <> "???".
Proof.
  assert (D : forall n sgn,
             (if sgn : bool then "-" else "") ++ fixed_digits comma digits n <> "???").
  { intros n sgn E.
    assert (C : Str.contains "."
                  ((if sgn then "-" else "") ++ fixed_digits comma digits n) = true).
    { unfold fixed_digits. destruct sgn.
      - apply contains_dot_cons. apply contains_dot_app.
      - apply contains_dot_app. }
    rewrite E in C. discriminate. }
  unfold format_fixed. destruct (Prim2SF x) as [sgn|sgn| |sgn m e].
  - apply D.
  - destruct sgn; discriminate.
  - discriminate.
  - apply D.
Qed.

Lemma fallback_price_truthy : price_truthy (Some fallback_price) = true.
Proof. reflexivity. Qed.

Lemma format_sale_message_total
    (ca : string) (out : outside) (s : sale) (w : world) :
  exists r w', format_sale_message ca out s w = (Ok r, w').
Proof.
  unfold format_sale_message, try_except, ret.
  match goal with
  | |- context [match ?b w with _ => _ end] => destruct (b w) as [[r|e] w']
  end; eauto.
Qed.

(** With both sources down and a sale priced at 1.5, the tweet carries
    1.5 * 1825 dollars, not the placeholder. *)
Lemma fallback_price_in_message :
  all_sources_fail offline fresh
  /\ exists m,
       fst (format_sale_message default_contract offline
              (a_sale (Present "0x01") "42" 1.5) fresh) = Ok (Some m)
       /\ m = "Primitive #42 bought for 1.5000 Ξ [$2,737.50]" ++ newline ++ newline
              ++ "⤷https://opensea.io/assets/base/0x424d781e0163b5a42ca2f27d036c2d5c561022c3/42"
       /\ Str.contains "$???" m = false.
Proof.
  split; [split; reflexivity|].
  eexists. split; [vm_compute; reflexivity|]. split; reflexivity.
Qed.

(** C5, as the code has it: when every price source fails, the formatter
    neither raises nor prints the placeholder; [get_eth_price] answers
    1825.00 and a message, when one is produced, carries the amount
    computed with that rate. *)
Theorem format_sale_message_fallback_price
    (ca : string) (out : outside) (s : sale) (w : world) :
  all_sources_fail out w ->
  get_eth_price out w = (Ok (Some (NFloat 1825)), tick (tick w))
  /\ (exists r w', format_sale_message ca out s w = (Ok r, w'))
  /\ (forall m,
        fst (format_sale_message ca out s w) = Ok (Some m) ->
        exists nft_collection display_id action_verb eth_amount contract token_id,
          let usd_formatted :=
            "$" ++ format_fixed true 2 (PrimFloat.mul eth_amount 1825) in
          m = render nft_collection display_id action_verb eth_amount
                usd_formatted contract token_id
          /\ usd_formatted <> "$???").
Proof.
  intros Hfail. split; [|split].
  - apply get_eth_price_fallback, Hfail.
  - apply format_sale_message_total.
  - intros m. unfold format_sale_message, try_except, bind, lift, ret.
    destruct (get_or no_token (s_token s)) as [tok|]; simpl; [|discriminate].
    destruct (other_contract ca (get (t_contract tok))); [discriminate|].
    destruct (get_or no_collection (t_collection tok)) as [coll|];
      simpl; [|discriminate].
    destruct (get_or no_price (s_price s)) as [pd|]; simpl; [|discriminate].
    destruct (get_or no_amount (p_amount pd)) as [amt|]; simpl; [|discriminate].
    destruct (decimal_of amt) as [eth|e]; [|discriminate].
    rewrite (get_eth_price_fallback out w Hfail).
    rewrite fallback_price_truthy. simpl.
    intros E. injection E as <-.
    do 6 eexists. split; [reflexivity|].
    intros C. injection C as C. exact (format_fixed_not_placeholder _ _ _ C).
Qed.

Lemma format_sale_message_fallback_price_sample :
  all_sources_fail offline fresh
  /\ get_eth_price offline fresh = (Ok (Some (NFloat 1825)), tick (tick fresh)).
Proof.
  assert (H : all_sources_fail offline fresh) by (split; reflexivity).
  split; [exact H|].
  exact (proj1 (format_sale_message_fallback_price default_contract offline
                  no_sale fresh H)).
Defined.

(** ** Records the formatter cannot read *)

(** Some entry the formatter uses as a dictionary or a number holds
    [null]: the collection, the price, the amount or the decimal.  The
    token itself is a dictionary or absent. *)
Definition null_entry (s : sale) : bool :=
  match get_or no_token (s_token s) with
  | None => false
  | Some tok =>
      match get_or no_collection (t_collection tok) with
      | None => true
      | Some _ =>
          match get_or no_price (s_price s) with
          | None => true
          | Some pd =>
              match get_or no_amount (p_amount pd) with
              | None => true
              | Some amt =>
                  match a_decimal amt with
                  | Null => true
                  | _ => false
                  end
              end
          end
      end
  end.

Lemma format_sale_message_null_entry
    (ca : string) (out : outside) (s : sale) (w : world) :
  null_entry s = true -> format_sale_message ca out s w = (Ok None, w).
Proof.
  unfold null_entry, format_sale_message, try_except, bind, lift, ret.
  destruct (get_or no_token (s_token s)) as [tok|]; simpl; [|discriminate].
  destruct (other_contract ca (get (t_contract tok))); [reflexivity|].
  destruct (get_or no_collection (t_collection tok)) as [coll|];
    simpl; [|reflexivity].
  destruct (get_or no_price (s_price s)) as [pd|]; simpl; [|reflexivity].
  destruct (get_or no_amount (p_amount pd)) as [amt|]; simpl; [|reflexivity].
  unfold decimal_of. destruct (a_decimal amt); simpl; try discriminate.
  reflexivity.
Qed.

(** A sale without any price entry. *)
Definition unpriced_sale : sale :=
  {| s_id := Absent;
     s_orderHash := Present "0x01";
     s_orderSide := Present "ask";
     s_token := Present (a_token "42");
     s_price := Absent;
     s_timestamp := Absent |}.

(** It is formatted with an amount of zero, and the cycle tweets it. *)
Lemma unpriced_sale_is_published :
  exists m,
    m = "Primitive #42 bought for 0.0000 Ξ [$0.00]" ++ newline ++ newline
        ++ "⤷https://opensea.io/assets/base/0x424d781e0163b5a42ca2f27d036c2d5c561022c3/42"
    /\ fst (format_sale_message default_contract offline unpriced_sale fresh)
       = Ok (Some m)
    /\ timeline (snd (process_sale default_contract offline unpriced_sale ([], 0) fresh))
       = [m].
Proof. eexists. split; [reflexivity|]. split; vm_compute; reflexivity. Qed.

(** C6, as the code has it: a record in which the collection, the price,
    the amount or the decimal is [null] makes the formatter return [None];
    the caller skips it, changes nothing and goes on with the records
    that follow. *)
Theorem null_entry_is_skipped
    (ca : string) (out : outside) (s : sale) (rest : list sale)
    (st : locals) (w : world) :
  null_entry s = true ->
  format_sale_message ca out s w = (Ok None, w)
  /\ process_sale ca out s st w = (Ok st, w)
  /\ process_sales ca out (s :: rest) st w = process_sales ca out rest st w.
Proof.
  intros Hnull.
  assert (Hf := format_sale_message_null_entry ca out s w Hnull).
  assert (Hp : process_sale ca out s st w = (Ok st, w)).
  { unfold process_sale. destruct st as [processed_sales sales_processed].
    destruct (key_in _ processed_sales); [reflexivity|].
    unfold null_entry in Hnull.
    destruct (get_or no_token (s_token s)) as [tok|]; [|discriminate].
    unfold bind at 1. unfold lift at 1. simpl.
    destruct (other_contract ca (get (t_contract tok))); [reflexivity|].
    unfold bind at 1. rewrite Hf. reflexivity. }
  split; [exact Hf|]. split; [exact Hp|].
  simpl. unfold bind at 1. now rewrite Hp.
Qed.

Lemma null_entry_is_skipped_sample :
  process_sale default_contract offline
    {| s_id := Absent; s_orderHash := Present "0x01"; s_orderSide := Present "ask";
       s_token := Present (a_token "42"); s_price := Null;
       s_timestamp := Absent |} ([], 0) fresh
  = (Ok ([], 0), fresh).
Proof.
  refine (proj1 (proj2 (null_entry_is_skipped default_contract offline _ []
                          ([], 0) fresh _))).
  reflexivity.
Defined.

(** ** What a computation leaves alone *)

(** [w'] differs from [w] at most in the number of calls made. *)
Definition same_store (w w' : world) : Prop :=
  processed_sales_file w' = processed_sales_file w
  /\ timeline w' = timeline w
  /\ attempts w' = attempts w.

Definition only_ticks {A} (m : M A) : Prop :=
  forall w, same_store w (snd (m w)).

Lemma same_store_refl w : same_store w w.
Proof. repeat split. Qed.

Lemma same_store_trans w1 w2 w3 :
  same_store w1 w2 -> same_store w2 w3 -> same_store w1 w3.
Proof.
  intros (a & b & c) (a' & b' & c'). repeat split; congruence.
Qed.

Lemma only_ticks_ret {A} (a : A) : only_ticks (ret a).
Proof. intros w. apply same_store_refl. Qed.

Lemma only_ticks_lift {A} (r : res A) : only_ticks (lift r).
Proof. intros w. apply same_store_refl. Qed.

Lemma only_ticks_bind {A B} (m : M A) (k : A -> M B) :
  only_ticks m -> (forall a, only_ticks (k a)) -> only_ticks (bind m k).
Proof.
  intros Hm Hk w. unfold bind. specialize (Hm w).
  destruct (m w) as [[a|e] w1]; simpl in *; [|exact Hm].
  eapply same_store_trans; [exact Hm | apply Hk].
Qed.

Lemma only_ticks_try {A} (body : M A) (handler : exn -> M A) :
  only_ticks body -> (forall e, only_ticks (handler e)) ->
  only_ticks (try_except body handler).
Proof.
  intros Hb Hh w. unfold try_except. specialize (Hb w).
  destruct (body w) as [[a|e] w1]; simpl in *; [exact Hb|].
  eapply same_store_trans; [exact Hb | apply Hh].
Qed.

Lemma only_ticks_requests_get {A} (endpoint : nat -> option (response A)) :
  only_ticks (requests_get endpoint).
Proof. intros w. repeat split. Qed.

Lemma only_ticks_response_json {A} (r : response A) : only_ticks (response_json r).
Proof. apply only_ticks_lift. Qed.

Lemma only_ticks_now out : only_ticks (now out).
Proof. intros w. repeat split. Qed.

Lemma only_ticks_download out token_id contract_address :
  only_ticks (download_nft_image out token_id contract_address).
Proof. intros w. repeat split. Qed.

Lemma only_ticks_load : only_ticks load_processed_sales.
Proof. intros w. apply same_store_refl. Qed.

Create HintDb ticks.
#[local] Hint Resolve only_ticks_ret only_ticks_lift only_ticks_requests_get
  only_ticks_response_json only_ticks_now only_ticks_download only_ticks_load
  : ticks.

(** Walks down a computation built from the pieces above. *)
Ltac ticks :=
  repeat first
    [ solve [auto with ticks]
    | apply only_ticks_bind; [|intros ?]
    | apply only_ticks_try; [|intros ?]
    | match goal with
      | |- only_ticks (if ?b then _ else _) => destruct b
      | |- only_ticks (match ?x with _ => _ end) => destruct x
      end ].

Lemma only_ticks_get_eth_price out : only_ticks (get_eth_price out).
Proof.
  unfold get_eth_price. generalize apis. intros urls.
  induction urls as [|u rest IH]; simpl; ticks.
Qed.
#[local] Hint Resolve only_ticks_get_eth_price : ticks.

Lemma only_ticks_format_sale_message ca out s :
  only_ticks (format_sale_message ca out s).
Proof. unfold format_sale_message. ticks. Qed.
#[local] Hint Resolve only_ticks_format_sale_message : ticks.

Lemma only_ticks_convert_fills ca slug out l :
  only_ticks (convert_fills ca slug out l).
Proof.
  induction l as [|f rest IH]; simpl; [ticks|].
  destruct (for_our_contract ca f); [|exact IH].
  unfold sale_of_fill. ticks.
Qed.
#[local] Hint Resolve only_ticks_convert_fills : ticks.

Lemma only_ticks_fetch_recent_sales ca slug out include_bids :
  only_ticks (fetch_recent_sales ca slug out include_bids).
Proof.
  unfold fetch_recent_sales, fetch_sales_with_params, activity_strategy,
    fills_strategy.
  ticks.
Qed.
#[local] Hint Resolve only_ticks_fetch_recent_sales : ticks.

(** ** One record of the cycle *)

Lemma key_eqb_eq (a b : key) : key_eqb a b = true <-> a = b.
Proof.
  destruct a as [x|], b as [y|]; simpl; split; intros H;
    try discriminate; try reflexivity.
  - apply String.eqb_eq in H. now subst.
  - injection H as ->. apply String.eqb_refl.
Qed.

Lemma key_in_iff (k : key) (l : list key) : key_in k l = true <-> In k l.
Proof.
  unfold key_in. rewrite existsb_exists. split.
  - intros (x & Hx & E). apply key_eqb_eq in E. now subst.
  - intros H. exists k. split; [exact H | now apply key_eqb_eq].
Qed.

Lemma key_in_false (k : key) (l : list key) : key_in k l = false <-> ~ In k l.
Proof.
  rewrite <- key_in_iff. destruct (key_in k l); split; intros H;
    try discriminate; try reflexivity; try (intros C; discriminate).
  exfalso. now apply H.
Qed.

(** The key [process_new_sales] files a sale under. *)
Definition sale_key (s : sale) : key := get_or "" (s_orderHash s).

(** The three ways an iteration can end: nothing was handed to Twitter
    (a duplicate, another contract, no message, or the iteration raised),
    the tweet failed, or the tweet went out. *)
Lemma process_sale_cases ca out s l n w :
  let r := fst (process_sale ca out s (l, n) w) in
  let w' := snd (process_sale ca out s (l, n) w) in
  (same_store w w' /\ (r = Ok (l, n) \/ exists e, r = Raise e))
  \/ (key_in (sale_key s) l = false
      /\ r = Ok (l, n)
      /\ processed_sales_file w' = processed_sales_file w
      /\ timeline w' = timeline w
      /\ attempts w' = (attempts w ++ [(sale_key s, false)])%list)
  \/ (key_in (sale_key s) l = false
      /\ r = Ok ((l ++ [sale_key s])%list, S n)
      /\ processed_sales_file w' = (l ++ [sale_key s])%list
      /\ (exists m, timeline w' = (timeline w ++ [m])%list)
      /\ attempts w' = (attempts w ++ [(sale_key s, true)])%list).
Proof.
  destruct (process_sale ca out s (l, n) w) as [r w'] eqn:E. simpl.
  revert E. unfold process_sale. fold (sale_key s).
  destruct (key_in (sale_key s) l) eqn:Hdup.
  { intros [= <- <-]. left. split; [apply same_store_refl | now left]. }
  unfold bind at 1. unfold lift at 1.
  destruct (get_or no_token (s_token s)) as [tok|]; simpl deref; cbv iota beta.
  2:{ intros [= <- <-]. left. split; [apply same_store_refl | right; eauto]. }
  destruct (other_contract ca (get (t_contract tok))).
  { intros [= <- <-]. left. split; [apply same_store_refl | now left]. }
  unfold bind at 1.
  destruct (format_sale_message_total ca out s w) as (msg & w1 & Hf).
  assert (Hs := only_ticks_format_sale_message ca out s w).
  rewrite Hf in *. simpl in Hs.
  destruct (truthy msg).
  2:{ intros [= <- <-]. left. split; [exact Hs | now left]. }
  destruct Hs as (Hfile & Htl & Hat).
  unfold bind, download_nft_image, post_to_twitter, record_attempt,
    save_processed_sales, ret. simpl.
  destruct (twitter_accepts out (S (calls w1)) (py_str msg)
              (nft_image out (calls w1) (get (t_tokenId tok))
                 (get (t_contract tok)))); simpl; intros [= <- <-]; simpl.
  - right. right. repeat split; try congruence.
    exists (py_str msg). congruence.
  - right. left. repeat split; congruence.
Qed.

(** ** The key of a sale without an order hash *)

Definition anonymous_sale : sale :=
  {| s_id := Absent;
     s_orderHash := Absent;
     s_orderSide := Present "ask";
     s_token := Present (a_token "42");
     s_price := Present (a_price 1.5);
     s_timestamp := Absent |}.

(** Discovery finds [l] through the sales endpoint at every cycle. *)
Definition feed (l : list sale) : outside :=
  {| price_source := fun _ _ => None;
     sales_v6 := fun _ =>
       Some {| status_code := 200; json := Some {| sales := Present l |} |};
     tokens_activity_v5 := fun _ => None;
     orders_fills_v6 := fun _ => None;
     fromisoformat := fun _ => None;
     clock := fun _ => 0%Z;
     nft_image := fun _ _ _ => None;
     twitter_accepts := fun _ _ _ => true |}.




(** The record reaches [post_to_twitter]: its token is a dictionary,
    its contract passes, [format_sale_message] gives the non-empty text
    [m], the image is looked up, and [post_to_twitter] called with both
    answers [posted]. *)
Definition handed_to_twitter (ca : string) (out : outside) (s : sale) (w : world)
    (posted : bool) (m : string) : Prop :=
  exists tok w1 image w2,
    get_or no_token (s_token s) = Some tok
    /\ other_contract ca (get (t_contract tok)) = false
    /\ format_sale_message ca out s w = (Ok (Some m), w1)
    /\ m <> ""
    /\ download_nft_image out (get (t_tokenId tok)) (get (t_contract tok)) w1
       = (Ok image, w2)
    /\ fst (post_to_twitter out m image w2) = Ok posted.

(** The record never reaches [post_to_twitter]: it is a duplicate, its
    token entry is [null], its contract is another one, or there is no
    message for it. *)
Definition passed_over (ca : string) (out : outside) (s : sale) (l : list key)
    (w : world) : Prop :=
  key_in (sale_key s) l = true
  \/ get_or no_token (s_token s) = None
  \/ other_contract ca (sale_contract s) = true
  \/ exists msg w1,
       format_sale_message ca out s w = (Ok msg, w1) /\ truthy msg = false.

(** The three ways an iteration can end, with what decides between them
    and what each leaves on the timeline. *)
Lemma process_sale_outcome ca out s l n w :
  let r := fst (process_sale ca out s (l, n) w) in
  let w' := snd (process_sale ca out s (l, n) w) in
  (passed_over ca out s l w
   /\ same_store w w'
   /\ (r = Ok (l, n) \/ exists e, r = Raise e))
  \/ (exists m,
        handed_to_twitter ca out s w false m
        /\ key_in (sale_key s) l = false
        /\ r = Ok (l, n)
        /\ processed_sales_file w' = processed_sales_file w
        /\ timeline w' = timeline w
        /\ attempts w' = (attempts w ++ [(sale_key s, false)])%list)
  \/ (exists m,
        handed_to_twitter ca out s w true m
        /\ key_in (sale_key s) l = false
        /\ r = Ok ((l ++ [sale_key s])%list, S n)
        /\ processed_sales_file w' = (l ++ [sale_key s])%list
        /\ timeline w' = (timeline w ++ [m])%list
        /\ attempts w' = (attempts w ++ [(sale_key s, true)])%list).
Proof.
  destruct (process_sale ca out s (l, n) w) as [r w'] eqn:E. simpl.
  revert E. unfold process_sale. fold (sale_key s).
  destruct (key_in (sale_key s) l) eqn:Hdup.
  { intros [= <- <-]. left. split; [now left|].
    split; [apply same_store_refl | now left]. }
  unfold bind at 1. unfold lift at 1.
  destruct (get_or no_token (s_token s)) as [tok|] eqn:Htok;
    simpl deref; cbv iota beta.
  2:{ intros [= <- <-]. left. split; [right; now left|].
      split; [apply same_store_refl | right; eauto]. }
  destruct (other_contract ca (get (t_contract tok))) eqn:Hoc.
  { intros [= <- <-]. left. split.
    - right. right. left. unfold sale_contract. now rewrite Htok.
    - split; [apply same_store_refl | now left]. }
  unfold bind at 1.
  destruct (format_sale_message_total ca out s w) as (msg & w1 & Hf).
  assert (Hs := only_ticks_format_sale_message ca out s w).
  rewrite Hf in Hs. rewrite Hf. simpl in Hs.
  destruct (truthy msg) eqn:Hm.
  2:{ intros [= <- <-]. left. split.
      - right. right. right. exists msg, w1. split; assumption.
      - split; [exact Hs | now left]. }
  destruct msg as [[|c m]|]; try discriminate.
  destruct Hs as (Hfile & Htl & Hat).
  unfold bind, download_nft_image, post_to_twitter, record_attempt,
    save_processed_sales, ret. simpl.
  set (image := nft_image out (calls w1) (get (t_tokenId tok))
                  (get (t_contract tok))).
  assert (Hh : forall posted,
            twitter_accepts out (S (calls w1)) (String c m) image = posted ->
            handed_to_twitter ca out s w posted (String c m)).
  { intros posted Hp. exists tok, w1, image, (tick w1).
    repeat split; try assumption; try discriminate.
    unfold post_to_twitter. simpl. now rewrite Hp. }
  destruct (twitter_accepts out (S (calls w1)) (String c m) image) eqn:Hok;
    simpl; intros [= <- <-]; simpl.
  - right. right. exists (String c m).
    split; [now apply Hh|]. repeat split; congruence.
  - right. left. exists (String c m).
    split; [now apply Hh|]. repeat split; congruence.
Qed.

(** C8: one iteration started with the list as it is on file ends in one
    of three ways.  [post_to_twitter] was called and the tweet went out:
    the text is on the timeline, the key is appended and the list written
    back at once.  [post_to_twitter] was called and failed: timeline,
    list and file are as before and the key is still not on file, so the
    next cycle takes the record up again.  The record never reached
    [post_to_twitter]: timeline and file are as before. *)
Theorem store_follows_publish ca out s n w :
  let l := processed_sales_file w in
  let r := fst (process_sale ca out s (l, n) w) in
  let w' := snd (process_sale ca out s (l, n) w) in
  (exists m,
     handed_to_twitter ca out s w true m
     /\ timeline w' = (timeline w ++ [m])%list
     /\ processed_sales_file w' = (l ++ [sale_key s])%list
     /\ r = Ok ((l ++ [sale_key s])%list, S n)
     /\ attempts w' = (attempts w ++ [(sale_key s, true)])%list)
  \/ (exists m,
        handed_to_twitter ca out s w false m
        /\ timeline w' = timeline w
        /\ processed_sales_file w' = l
        /\ r = Ok (l, n)
        /\ key_in (sale_key s) (processed_sales_file w') = false
        /\ attempts w' = (attempts w ++ [(sale_key s, false)])%list)
  \/ (passed_over ca out s l w
      /\ timeline w' = timeline w
      /\ processed_sales_file w' = l
      /\ attempts w' = attempts w
      /\ (r = Ok (l, n) \/ exists e, r = Raise e)).
Proof.
  intros l r w'. subst l r w'.
  destruct (process_sale_outcome ca out s (processed_sales_file w) n w)
    as [(Hp & (Hf & Ht & Ha) & Hr)
       | [(m & Hh & Hk & Hr & Hf & Ht & Ha) | (m & Hh & Hk & Hr & Hf & Ht & Ha)]].
  - right. right. repeat split; assumption.
  - right. left. exists m. rewrite Hf. repeat split; assumption.
  - left. exists m. repeat split; assumption.
Qed.

(** ** Across cycles *)

(** No key is handed to Twitter again after a tweet for it went out. *)
Fixpoint no_retry_after_success (l : list (key * bool)) : Prop :=
  match l with
  | [] => True
  | (h, ok) :: rest =>
      (ok = true -> ~ In h (map fst rest)) /\ no_retry_after_success rest
  end.

Lemma no_retry_snoc l id ok :
  no_retry_after_success l ->
  (forall h, In (h, true) l -> h <> id) ->
  no_retry_after_success (l ++ [(id, ok)]).
Proof.
  induction l as [|[h b] rest IH]; simpl; intros Hl Hne.
  - split; [intros _ []|exact I].
  - destruct Hl as [Hh Hrest]. split.
    + intros -> Hin. rewrite map_app in Hin. apply in_app_or in Hin.
      destruct Hin as [Hin | [<- | []]].
      * now apply Hh.
      * apply (Hne id); [now left | reflexivity].
    + apply IH; [exact Hrest|]. intros k Hk. apply Hne. now right.
Qed.


(** What holds of a world [w] reached from [w0] by the poll loop, [new]
    being the attempts made on the way. *)
Definition reached (w0 w : world) (new : list (key * bool)) : Prop :=
  attempts w = (attempts w0 ++ new)%list
  /\ (forall h, In h (processed_sales_file w0) -> In h (processed_sales_file w))
  /\ (forall h, In h (map fst new) -> ~ In h (processed_sales_file w0))
  /\ (forall h, In (h, true) new -> In h (processed_sales_file w))
  /\ no_retry_after_success new
  /\ (NoDup (processed_sales_file w0) -> NoDup (processed_sales_file w)).

Lemma reached_refl w : reached w w [].
Proof.
  unfold reached. rewrite app_nil_r. repeat split; auto; intros h [].
Qed.

Lemma reached_same_store w0 w w1 new :
  reached w0 w new -> same_store w w1 -> reached w0 w1 new.
Proof.
  intros (Ha & Hi & Hn & Ht & Ho & Hd) (Sf & _ & Sa).
  unfold reached. rewrite Sf, Sa. repeat split; assumption.
Qed.

Lemma reached_attempt w0 w w1 new id (ok : bool) :
  reached w0 w new ->
  ~ In id (processed_sales_file w) ->
  processed_sales_file w1 =
    (if ok then processed_sales_file w ++ [id] else processed_sales_file w)%list ->
  attempts w1 = (attempts w ++ [(id, ok)])%list ->
  reached w0 w1 (new ++ [(id, ok)]).
Proof.
  intros (Ha & Hi & Hn & Ht & Ho & Hd) Hid Hf Hat.
  assert (Hgrow : forall h, In h (processed_sales_file w) ->
                            In h (processed_sales_file w1)).
  { intros h Hh. rewrite Hf. destruct ok; [apply in_or_app; now left | exact Hh]. }
  unfold reached. repeat split.
  - rewrite Hat, Ha. now rewrite app_assoc.
  - intros h Hh. apply Hgrow, Hi, Hh.
  - intros h Hh. rewrite map_app in Hh. apply in_app_or in Hh.
    destruct Hh as [Hh | [<- | []]]; [now apply Hn|].
    intros C. apply Hid, Hi, C.
  - intros h Hh. apply in_app_or in Hh. destruct Hh as [Hh | [E | []]].
    + apply Hgrow, Ht, Hh.
    + injection E as E1 E2. subst h ok. rewrite Hf. apply in_or_app. right. now left.
  - apply no_retry_snoc; [exact Ho|].
    intros h Hh ->. apply Hid, Ht, Hh.
  - intros Hnd. specialize (Hd Hnd). rewrite Hf. destruct ok; [|exact Hd].
    apply NoDup_app; [exact Hd | repeat constructor; intros [] |].
    intros h Hh [<- | []]. now apply Hid.
Qed.

Lemma process_sales_reached ca out w0 ss :
  forall n w new,
    reached w0 w new ->
    exists new',
      reached w0 (snd (process_sales ca out ss (processed_sales_file w, n) w)) new'.
Proof.
  induction ss as [|s rest IH]; intros n w new Hr.
  - exists new. exact Hr.
  - change (process_sales ca out (s :: rest) (processed_sales_file w, n) w)
      with (bind (process_sale ca out s (processed_sales_file w, n))
              (process_sales ca out rest) w).
    unfold bind.
    pose proof (process_sale_cases ca out s (processed_sales_file w) n w) as C.
    destruct (process_sale ca out s (processed_sales_file w, n) w)
      as [[st|e] w1]; cbn [fst snd] in C;
      destruct C as [[Hs Hres]
                    | [(Hk & Hres & Hf & _ & Ha) | (Hk & Hres & Hf & _ & Ha)]];
      try discriminate.
    + destruct Hres as [[= ->] | [e [=]]].
      rewrite <- (proj1 Hs).
      apply (IH n w1 new). eapply reached_same_store; eassumption.
    + injection Hres as ->. rewrite <- Hf.
      apply (IH n w1 (new ++ [(sale_key s, false)])%list).
      apply (reached_attempt w0 w w1 new (sale_key s) false Hr);
        [now apply key_in_false | exact Hf | exact Ha].
    + injection Hres as ->. rewrite <- Hf.
      apply (IH (S n) w1 (new ++ [(sale_key s, true)])%list).
      apply (reached_attempt w0 w w1 new (sale_key s) true Hr);
        [now apply key_in_false | exact Hf | exact Ha].
    + exists new. eapply reached_same_store; eassumption.
Qed.

Lemma process_new_sales_reached ca slug out w0 w new :
  reached w0 w new ->
  exists new', reached w0 (snd (process_new_sales ca slug out w)) new'.
Proof.
  intros Hr. unfold process_new_sales, load_processed_sales.
  unfold bind at 1. unfold bind at 1.
  assert (Hs := only_ticks_fetch_recent_sales ca slug out true w).
  destruct (fetch_recent_sales ca slug out true w) as [[recent|e] w1];
    simpl in Hs.
  2:{ exists new. eapply reached_same_store; eassumption. }
  assert (Hr1 : reached w0 w1 new) by (eapply reached_same_store; eassumption).
  destruct recent as [|s rest].
  - exists new. exact Hr1.
  - rewrite <- (proj1 Hs).
    destruct (process_sales_reached ca out w0 (s :: rest) 0 w1 new Hr1)
      as [new' Hn].
    exists new'. unfold bind.
    destruct (process_sales ca out (s :: rest) (processed_sales_file w1, 0) w1)
      as [[st|e] w2]; exact Hn.
Qed.

Lemma main_reached ca slug out w0 n :
  forall w new,
    reached w0 w new ->
    exists new', reached w0 (snd (main ca slug out n w)) new'.
Proof.
  induction n as [|n IH]; intros w new Hr; simpl.
  - exists new. exact Hr.
  - destruct (process_new_sales_reached ca slug out w0 w new Hr) as [new1 H1].
    unfold bind.
    destruct (process_new_sales ca slug out w) as [[k|e] w1]; simpl in H1.
    + apply (IH w1 new1 H1).
    + exists new1. exact H1.
Qed.

















(** C10: a list without repetition on file stays without repetition,
    whatever discovery returns in the cycles that follow. *)
Theorem processed_sales_stay_distinct ca slug out n w :
  NoDup (processed_sales_file w) ->
  NoDup (processed_sales_file (snd (main ca slug out n w))).
Proof.
  intros Hnd.
  destruct (main_reached ca slug out w n w [] (reached_refl w))
    as (new & _ & _ & _ & _ & _ & Hd).
  exact (Hd Hnd).
Qed.

(** The same order hash twice in one batch, as on the first run. *)
Lemma processed_sales_stay_distinct_sample :
  NoDup (processed_sales_file
           (snd (main default_contract None
                   (feed [a_sale (Present "0x01") "42" 1.5;
                          a_sale (Present "0x01") "42" 1.5]) 2 fresh))).
Proof.
  apply processed_sales_stay_distinct. simpl. constructor.
Defined.

(** ** The order-fills strategy *)

(** An oracle for [fromisoformat] that knows one date: midnight UTC on
    1 January 2024.  It serves inputs whose creation times are that date
    or no ISO-8601 text at all. *)
Definition knows_new_year_2024 (s : string) : option Z :=
  if String.eqb s "2024-01-01T00:00:00+00:00" then Some 1704067200%Z else None.

(** The fills endpoint answers 200 with [l]; the two sales endpoints
    answer 200 with nothing. *)
Definition fills_feed (l : list fill) : outside :=
  {| price_source := fun _ _ => None;
     sales_v6 := fun _ =>
       Some {| status_code := 200; json := Some {| sales := Present [] |} |};
     tokens_activity_v5 := fun _ =>
       Some {| status_code := 200; json := Some {| activities := Present [] |} |};
     orders_fills_v6 := fun _ =>
       Some {| status_code := 200; json := Some {| fills := Present l |} |};
     fromisoformat := knows_new_year_2024;
     clock := fun _ => 1700000000%Z;
     nft_image := fun _ _ _ => None;
     twitter_accepts := fun _ _ _ => true |}.

Definition a_fill (contract order_hash : string) (created_at : field string) : fill :=
  {| f_id := Absent;
     f_orderHash := Present order_hash;
     f_contract := Present contract;
     f_tokenId := Present "7";
     f_tokenName := Absent;
     f_collectionName := Absent;
     f_price := Present (NFloat 0.5);
     f_createdAt := created_at |}.

(** The configured address with its hexadecimal letters in upper case. *)
Definition shouted_contract : string := "0x424D781E0163B5A42CA2F27D036C2D5C561022C3".

Definition new_year : field string := Present "2024-01-01T00:00:00Z".

(** Were [COLLECTION_SLUG] bound, a fill whose contract is written exactly
    as configured would become a bid-side sale stamped with its creation
    time. *)
Lemma fill_same_case_is_converted :
  exists s,
    fst (fetch_recent_sales default_contract (Some "primitives")
           (fills_feed [a_fill default_contract "0x02" new_year]) true fresh)
    = Ok [s]
    /\ s_orderSide s = Present "bid"
    /\ s_orderHash s = Present "0x02"
    /\ s_timestamp s = Present 1704067200%Z.
Proof. eexists. split; [vm_compute; reflexivity|]. repeat split. Qed.

(** Without a creation time the clock is read. *)
Lemma fill_without_date_takes_clock :
  exists s,
    fst (fills_strategy default_contract (Some "primitives")
           (fills_feed [a_fill default_contract "0x02" Absent]) fresh)
    = Ok (Some [s])
    /\ s_timestamp s = Present 1700000000%Z.
Proof. eexists. split; [vm_compute; reflexivity|]. reflexivity. Qed.

(** The module as it is never yields a sale from this strategy: the
    dictionary literal names [COLLECTION_SLUG], which nothing binds. *)
Lemma fills_strategy_unbound_slug ca out w :
  fst (fills_strategy ca None out w) = Ok None.
Proof.
  unfold fills_strategy, try_except, bind, requests_get, response_json, lift, ret.
  destruct (orders_fills_v6 out (calls w)) as [resp|]; simpl; [|reflexivity].
  destruct (status_code resp =? 200)%Z; [|reflexivity].
  destruct (json resp) as [data|]; simpl; [|reflexivity].
  destruct (get_or [] (fills data)) as [l|]; simpl; [|reflexivity].
  assert (H : forall w1, (exists w2, convert_fills ca None out l w1 = (Ok [], w2))
                         \/ exists e w2, convert_fills ca None out l w1 = (Raise e, w2)).
  { induction l as [|f rest IH]; intros w1; simpl.
    - left. eexists. reflexivity.
    - destruct (for_our_contract ca f); [|apply IH].
      right. do 2 eexists. reflexivity. }
  destruct (H (tick w)) as [[w2 E] | (e & w2 & E)]; rewrite E; reflexivity.
Qed.

(** C3, where the code departs from it: a fill whose contract equals the
    configured address up to letter case is dropped, whether or not
    [COLLECTION_SLUG] is bound, because the comparison is [==]. *)
Theorem fill_other_case_is_dropped :
  Str.lower shouted_contract = Str.lower default_contract
  /\ for_our_contract default_contract (a_fill shouted_contract "0x02" new_year) = false
  /\ forall slug,
       fst (fetch_recent_sales default_contract slug
              (fills_feed [a_fill shouted_contract "0x02" new_year]) true fresh)
       = Ok [].
Proof.
  split; [reflexivity|]. split; [reflexivity|].
  intros [slug|]; vm_compute; reflexivity.
Qed.

Lemma sale_of_fill_bad_date slug out f w :
  truthy (get (f_createdAt f)) = true ->
  fromisoformat out (replace_Z (py_str (get (f_createdAt f)))) = None ->
  exists e w', sale_of_fill slug out f w = (Raise e, w').
Proof.
  intros Ht Hp. unfold sale_of_fill, bind, lift, ret.
  destruct slug as [slug|]; simpl; [|eauto].
  destruct (match get_or (NInt 0) (f_price f) with
            | Some n => py_float n
            | None => Raise TypeError
            end) as [d|e]; [|eauto].
  rewrite Ht, Hp. simpl. eauto.
Qed.

Lemma convert_fills_bad_date ca slug out f l :
  In f l ->
  for_our_contract ca f = true ->
  truthy (get (f_createdAt f)) = true ->
  fromisoformat out (replace_Z (py_str (get (f_createdAt f)))) = None ->
  forall w, exists e w', convert_fills ca slug out l w = (Raise e, w').
Proof.
  intros Hin Hc Ht Hp. induction l as [|g rest IH]; [destruct Hin|].
  intros w. simpl.
  destruct Hin as [-> | Hin].
  - rewrite Hc.
    destruct (sale_of_fill_bad_date slug out f w Ht Hp) as (e & w' & E).
    unfold bind at 1. rewrite E. eauto.
  - destruct (for_our_contract ca g); [|apply IH, Hin].
    unfold bind at 1.
    destruct (sale_of_fill slug out g w) as [[s|e] w1]; [|eauto].
    destruct (IH Hin w1) as (e & w' & E).
    unfold bind at 1. rewrite E. eauto.
Qed.

(** C7, where the code departs from it: one fill for the contract whose
    creation time is there but is no ISO-8601 text makes
    [datetime.fromisoformat] raise inside the loop; the [except] clause
    around the whole block swallows it and the strategy yields nothing,
    the other fills of the response included. *)
Theorem bad_date_empties_fills ca slug out w l f :
  orders_fills_v6 out (calls w)
  = Some {| status_code := 200; json := Some {| fills := Present l |} |} ->
  In f l ->
  for_our_contract ca f = true ->
  truthy (get (f_createdAt f)) = true ->
  fromisoformat out (replace_Z (py_str (get (f_createdAt f)))) = None ->
  fst (fills_strategy ca slug out w) = Ok None.
Proof.
  intros Hresp Hin Hc Ht Hp.
  unfold fills_strategy, try_except, bind at 1, requests_get.
  rewrite Hresp. simpl deref. cbv iota beta. simpl status_code.
  change (200 =? 200)%Z with true. cbv iota.
  unfold bind at 1, response_json, lift at 1. simpl.
  unfold bind at 1, lift at 1. simpl.
  destruct (convert_fills_bad_date ca slug out f l Hin Hc Ht Hp (tick w))
    as (e & w' & E).
  unfold bind at 1. rewrite E. reflexivity.
Qed.

(** Two fills, the first dated "yesterday": the second, well dated, is
    lost with it. *)
Lemma bad_date_empties_fills_sample :
  fst (fills_strategy default_contract (Some "primitives")
         (fills_feed [a_fill default_contract "0x01" (Present "yesterday");
                      a_fill default_contract "0x02" new_year]) fresh)
  = Ok None.
Proof.
  apply (bad_date_empties_fills default_contract (Some "primitives") _ fresh
           [a_fill default_contract "0x01" (Present "yesterday");
            a_fill default_contract "0x02" new_year]
           (a_fill default_contract "0x01" (Present "yesterday")));
    [reflexivity | simpl; now left | reflexivity | reflexivity | reflexivity].
Defined.

(** * Further properties of the program *)

(** ** Sale discovery *)

(** An endpoint that gives nothing: the request raises or the status is
    not 200. *)
Definition endpoint_down {A} (r : option (response A)) : bool :=
  match r with
  | None => true
  | Some resp => negb (status_code resp =? 200)%Z
  end.

Lemma try_except_default {A} (body : M A) (d : A) w :
  exists a w', try_except body (fun _ => ret d) w = (Ok a, w').
Proof.
  unfold try_except, ret. destruct (body w) as [[a|e] w']; eauto.
Qed.

Lemma try_request_down {A B} (endpoint : nat -> option (response A))
    (k : A -> M B) (d : B) w :
  endpoint_down (endpoint (calls w)) = true ->
  try_except
    (response <- requests_get endpoint ;;
     if (status_code response =? 200)%Z
     then data <- response_json response ;; k data
     else ret d)
    (fun _ => ret d) w = (Ok d, tick w).
Proof.
  unfold endpoint_down, try_except, bind, requests_get, ret.
  destruct (endpoint (calls w)) as [resp|]; simpl; [|reflexivity].
  destruct (status_code resp =? 200)%Z; [discriminate | reflexivity].
Qed.

Lemma fetch_recent_sales_primary ca slug out include_bids w l :
  sales_v6 out (calls w)
  = Some {| status_code := 200; json := Some {| sales := Present l |} |} ->
  l <> [] ->
  fetch_recent_sales ca slug out include_bids w = (Ok l, tick w).
Proof.
  intros Hresp Hl. unfold fetch_recent_sales.
  assert (E : fetch_sales_with_params out w = (Ok l, tick w)).
  { unfold fetch_sales_with_params, try_except, bind, requests_get,
      response_json, lift, ret.
    rewrite Hresp. reflexivity. }
  unfold bind at 1. rewrite E.
  destruct l as [|s rest]; [contradiction | reflexivity].
Qed.

(** X1: when the sales endpoint answers 200 with at least one sale,
    [fetch_recent_sales] returns that list as it is after this single
    request; the activity and fills endpoints are not contacted. *)
Theorem primary_sales_short_circuit ca slug out include_bids w l :
  sales_v6 out (calls w)
  = Some {| status_code := 200; json := Some {| sales := Present l |} |} ->
  l <> [] ->
  fetch_recent_sales ca slug out include_bids w = (Ok l, tick w).
Proof. exact (fetch_recent_sales_primary ca slug out include_bids w l). Qed.

Lemma primary_sales_short_circuit_sample :
  fetch_recent_sales default_contract None (feed [anonymous_sale]) true fresh
  = (Ok [anonymous_sale], tick fresh).
Proof.
  apply primary_sales_short_circuit; [reflexivity | discriminate].
Defined.

Lemma fetch_recent_sales_total ca slug out include_bids w :
  exists l w', fetch_recent_sales ca slug out include_bids w = (Ok l, w').
Proof.
  unfold fetch_recent_sales, bind.
  destruct (try_except_default
              (response <- requests_get (sales_v6 out) ;;
               if (status_code response =? 200)%Z
               then data <- response_json response ;;
                    lift (deref TypeError (get_or [] (sales data)))
               else ret []) [] w) as (l & w1 & E).
  unfold fetch_sales_with_params. rewrite E.
  destruct l as [|s rest]; [|unfold ret; eauto].
  unfold activity_strategy.
  match goal with
  | |- context [try_except ?b (fun _ => ret None) w1] =>
      destruct (try_except_default b None w1) as (a & w2 & E2); rewrite E2
  end.
  destruct a as [converted|]; [unfold ret; eauto|].
  destruct include_bids; [|unfold ret; eauto].
  unfold fills_strategy.
  match goal with
  | |- context [try_except ?b (fun _ => ret None) w2] =>
      destruct (try_except_default b None w2) as (a & w3 & E3); rewrite E3
  end.
  destruct a; unfold ret; eauto.
Qed.

Lemma fetch_recent_sales_down ca slug out w :
  endpoint_down (sales_v6 out (calls w)) = true ->
  endpoint_down (tokens_activity_v5 out (S (calls w))) = true ->
  endpoint_down (orders_fills_v6 out (S (S (calls w)))) = true ->
  fetch_recent_sales ca slug out true w = (Ok [], tick (tick (tick w))).
Proof.
  intros H1 H2 H3. unfold fetch_recent_sales.
  unfold bind at 1. unfold fetch_sales_with_params.
  rewrite (try_request_down _ _ _ w H1).
  unfold bind at 1. unfold activity_strategy.
  rewrite (try_request_down _ _ _ (tick w) H2).
  unfold bind at 1. unfold fills_strategy.
  rewrite (try_request_down _ _ _ (tick (tick w)) H3).
  reflexivity.
Qed.

(** X2: [fetch_recent_sales] never raises and touches neither the file
    nor the timeline; when the three endpoints are down (the request
    raises or the status is not 200) it returns the empty list after
    three requests. *)
Theorem fetch_recent_sales_exhausted ca slug out include_bids w :
  (exists l w', fetch_recent_sales ca slug out include_bids w = (Ok l, w')
                /\ same_store w w')
  /\ (endpoint_down (sales_v6 out (calls w)) = true ->
      endpoint_down (tokens_activity_v5 out (S (calls w))) = true ->
      endpoint_down (orders_fills_v6 out (S (S (calls w)))) = true ->
      fetch_recent_sales ca slug out true w = (Ok [], tick (tick (tick w)))).
Proof.
  split.
  - destruct (fetch_recent_sales_total ca slug out include_bids w)
      as (l & w' & E).
    exists l, w'. split; [exact E|].
    pose proof (only_ticks_fetch_recent_sales ca slug out include_bids w) as H.
    now rewrite E in H.
  - apply fetch_recent_sales_down.
Qed.

Lemma fetch_recent_sales_exhausted_sample :
  fetch_recent_sales default_contract None offline true fresh
  = (Ok [], tick (tick (tick fresh))).
Proof.
  apply (proj2 (fetch_recent_sales_exhausted default_contract None offline
                  true fresh)); reflexivity.
Defined.

(** X3: as the module stands, with [COLLECTION_SLUG] unbound, asking for
    bids changes nothing in what [fetch_recent_sales] returns: no sale
    ever comes out of the order-fills endpoint. *)
Theorem include_bids_makes_no_difference ca out w :
  fst (fetch_recent_sales ca None out true w)
  = fst (fetch_recent_sales ca None out false w).
Proof.
  unfold fetch_recent_sales, bind.
  destruct (fetch_sales_with_params out w) as [[[|s rest]|e] w1];
    try reflexivity.
  destruct (activity_strategy out w1) as [[[converted|]|e] w2];
    try reflexivity.
  pose proof (fills_strategy_unbound_slug ca out w2) as H.
  destruct (fills_strategy ca None out w2) as [[[l|]|e] w3]; simpl in H;
    try discriminate; reflexivity.
Qed.

Lemma convert_activities_ask l :
  forall converted,
    convert_activities l = Ok converted ->
    Forall (fun s => s_orderSide s = Present "ask" /\ sale_key s = Some "")
      converted.
Proof.
  induction l as [|a rest IH]; simpl; intros converted H.
  - injection H as <-. constructor.
  - destruct (is_sale a); [|now apply IH].
    unfold sale_of_activity in H.
    destruct (deref AttributeError (get_or no_token (act_token a)))
      as [tok|e]; [|discriminate].
    destruct (convert_activities rest) as [c|e]; [|discriminate].
    injection H as <-. constructor; [split; reflexivity | now apply IH].
Qed.

(** X4: every sale the token-activity strategy returns is an ask-side
    sale without an order hash, so that all of them are filed under the
    same key, the empty string; and the strategy never returns an empty
    list. *)
Theorem activity_sales_share_one_key out w l :
  fst (activity_strategy out w) = Ok (Some l) ->
  l <> []
  /\ Forall (fun s => s_orderSide s = Present "ask" /\ sale_key s = Some "") l.
Proof.
  unfold activity_strategy, try_except, bind, requests_get, response_json,
    lift, ret.
  destruct (tokens_activity_v5 out (calls w)) as [resp|]; simpl;
    [|discriminate].
  destruct (status_code resp =? 200)%Z; [|discriminate].
  destruct (json resp) as [data|]; simpl; [|discriminate].
  destruct (get_or [] (activities data)) as [acts|]; simpl; [|discriminate].
  pose proof (convert_activities_ask acts) as H.
  destruct (convert_activities acts) as [[|s rest]|e]; simpl; try discriminate.
  intros [= <-]. split; [discriminate | now apply H].
Qed.

(** The activity endpoint reports two sales. *)
Definition activity_feed (l : list activity) : outside :=
  {| price_source := fun _ _ => None;
     sales_v6 := fun _ => None;
     tokens_activity_v5 := fun _ =>
       Some {| status_code := 200; json := Some {| activities := Present l |} |};
     orders_fills_v6 := fun _ => None;
     fromisoformat := fun _ => None;
     clock := fun _ => 0%Z;
     nft_image := fun _ _ _ => None;
     twitter_accepts := fun _ _ _ => true |}.

Definition an_activity (token_id : string) : activity :=
  {| act_type := Present "sale";
     act_id := Present "a1";
     act_token := Present (a_token token_id);
     act_contract := Present default_contract;
     act_price := Present (a_price 1.5) |}.

Lemma activity_sales_share_one_key_sample :
  Forall (fun s => s_orderSide s = Present "ask" /\ sale_key s = Some "")
    [ {| s_id := Present "a1"; s_orderHash := Absent; s_orderSide := Present "ask";
         s_token := Present {| t_contract := Present default_contract;
                               t_tokenId := Present "1";
                               t_name := Absent; t_collection := Absent |};
         s_price := Present (a_price 1.5); s_timestamp := Absent |} ].
Proof.
  refine (proj2 (activity_sales_share_one_key
                   (activity_feed [an_activity "1"]) fresh _ _)).
  reflexivity.
Defined.

(** ** The price oracle *)

Lemma try_price_source_ticks out url w :
  exists found,
    try_except
      (response <- requests_get (fun n => price_source out n url) ;;
       if (status_code response =? 200)%Z
       then data <- response_json response ;; lift (read_price data)
       else ret None)
      (fun _ => ret None) w = (Ok found, tick w).
Proof.
  unfold try_except, bind, requests_get, response_json, lift, ret.
  destruct (price_source out (calls w) url) as [resp|]; simpl; [|eauto].
  destruct (status_code resp =? 200)%Z; [|eauto].
  destruct (json resp) as [data|]; simpl; [|eauto].
  destruct (read_price data) as [found|e]; eauto.
Qed.

(** X5: the first source that answers 200 with a body of a known shape
    decides the rate: [get_eth_price] returns its price after this single
    request, and the second source is not contacted. *)
Theorem first_price_source_wins out w data p :
  price_source out (calls w) (nth 0 apis "")
  = Some {| status_code := 200; json := Some data |} ->
  read_price data = Ok (Some p) ->
  get_eth_price out w = (Ok p, tick w).
Proof.
  intros Hresp Hread. unfold get_eth_price, apis in *. simpl in Hresp.
  simpl get_eth_price_from.
  unfold bind at 1, try_except, bind at 1, requests_get.
  rewrite Hresp. simpl.
  unfold bind, response_json, lift, ret. simpl. rewrite Hread. reflexivity.
Qed.

(** The first source quotes [rate] in the shape of CoinGecko. *)
Definition quoting (rate : field num) : outside :=
  {| price_source := fun _ _ =>
       Some {| status_code := 200;
               json := Some {| ethereum := Present {| usd := rate |};
                               USD := Absent |} |};
     sales_v6 := fun _ => None;
     tokens_activity_v5 := fun _ => None;
     orders_fills_v6 := fun _ => None;
     fromisoformat := fun _ => None;
     clock := fun _ => 0%Z;
     nft_image := fun _ _ _ => None;
     twitter_accepts := fun _ _ _ => true |}.

Lemma first_price_source_wins_sample :
  get_eth_price (quoting (Present (NFloat 2000))) fresh
  = (Ok (Some (NFloat 2000)), tick fresh).
Proof.
  apply (first_price_source_wins (quoting (Present (NFloat 2000))) fresh
           {| ethereum := Present {| usd := Present (NFloat 2000) |};
              USD := Absent |});
    reflexivity.
Defined.

Lemma get_eth_price_outcome out w :
  exists p w',
    get_eth_price out w = (Ok p, w')
    /\ same_store w w'
    /\ (calls w' = S (calls w) \/ calls w' = S (S (calls w))).
Proof.
  unfold get_eth_price, apis. simpl get_eth_price_from.
  destruct (try_price_source_ticks out
              "https://api.coingecko.com/api/v3/simple/price?ids=ethereum&vs_currencies=usd"
              w) as [f1 E1].
  unfold bind at 1. rewrite E1.
  destruct f1 as [p|].
  - exists p, (tick w). split; [reflexivity|]. split; [repeat split | now left].
  - destruct (try_price_source_ticks out
                "https://min-api.cryptocompare.com/data/price?fsym=ETH&tsyms=USD"
                (tick w)) as [f2 E2].
    unfold bind at 1. rewrite E2.
    destruct f2 as [p|].
    + exists p, (tick (tick w)). split; [reflexivity|].
      split; [repeat split | now right].
    + exists (Some fallback_price), (tick (tick w)). split; [reflexivity|].
      split; [repeat split | now right].
Qed.

(** X6: [get_eth_price] never raises, makes one request or two, and
    changes nothing else. *)
Theorem get_eth_price_never_raises out w :
  exists p w',
    get_eth_price out w = (Ok p, w')
    /\ same_store w w'
    /\ (calls w' = S (calls w) \/ calls w' = S (S (calls w))).
Proof. exact (get_eth_price_outcome out w). Qed.

(** ** The message *)

(** X7: when the rate [get_eth_price] returns is [None] or zero, a message
    that is produced carries the literal placeholder for the fiat
    amount. *)
Theorem placeholder_when_rate_is_falsy ca out s w p w1 m :
  get_eth_price out w = (Ok p, w1) ->
  price_truthy p = false ->
  fst (format_sale_message ca out s w) = Ok (Some m) ->
  exists nft_collection display_id action_verb eth_amount contract token_id,
    m = render nft_collection display_id action_verb eth_amount "$???"
          contract token_id.
Proof.
  intros Hp Hfalsy. unfold format_sale_message, try_except, bind, lift, ret.
  destruct (get_or no_token (s_token s)) as [tok|]; simpl; [|discriminate].
  destruct (other_contract ca (get (t_contract tok))); [discriminate|].
  destruct (get_or no_collection (t_collection tok)) as [coll|];
    simpl; [|discriminate].
  destruct (get_or no_price (s_price s)) as [pd|]; simpl; [|discriminate].
  destruct (get_or no_amount (p_amount pd)) as [amt|]; simpl; [|discriminate].
  destruct (decimal_of amt) as [eth|e]; [|discriminate].
  rewrite Hp. destruct p as [rate|].
  - rewrite Hfalsy. intros [= <-]. do 6 eexists. reflexivity.
  - intros [= <-]. do 6 eexists. reflexivity.
Qed.

Lemma placeholder_when_rate_is_falsy_sample :
  exists nft_collection display_id action_verb eth_amount contract token_id,
    "Primitive #42 bought for 1.5000 Ξ [$???]" ++ newline ++ newline
      ++ "⤷https://opensea.io/assets/base/0x424d781e0163b5a42ca2f27d036c2d5c561022c3/42"
    = render nft_collection display_id action_verb eth_amount "$???"
        contract token_id.
Proof.
  apply (placeholder_when_rate_is_falsy default_contract
           (quoting (Present (NInt 0))) (a_sale (Present "0x01") "42" 1.5)
           fresh (Some (NInt 0)) (tick fresh));
    [reflexivity | reflexivity | vm_compute; reflexivity].
Defined.

(** X8: a message that is produced is the template filled in as follows:
    the collection name or "Primitive" when there is none, the display
    id, "offer accepted for" for a bid and "bought for" otherwise, and a
    link made of the contract and the raw token id as they stand in the
    record. *)
Theorem message_shape ca out s w m :
  fst (format_sale_message ca out s w) = Ok (Some m) ->
  exists tok coll eth_amount usd_formatted,
    get_or no_token (s_token s) = Some tok
    /\ get_or no_collection (t_collection tok) = Some coll
    /\ other_contract ca (get (t_contract tok)) = false
    /\ m = render
             (if truthy (get (c_name coll)) then py_str (get (c_name coll))
              else "Primitive")
             (display_token_id (get (t_tokenId tok)) (get (t_name tok)))
             (if is_bid s then "offer accepted for" else "bought for")
             eth_amount usd_formatted
             (get (t_contract tok)) (get (t_tokenId tok)).
Proof.
  unfold format_sale_message, try_except, bind, lift, ret.
  destruct (get_or no_token (s_token s)) as [tok|]; simpl; [|discriminate].
  destruct (other_contract ca (get (t_contract tok))) eqn:Ho; [discriminate|].
  destruct (get_or no_collection (t_collection tok)) as [coll|] eqn:Hc;
    simpl; [|discriminate].
  destruct (get_or no_price (s_price s)) as [pd|]; simpl; [|discriminate].
  destruct (get_or no_amount (p_amount pd)) as [amt|]; simpl; [|discriminate].
  destruct (decimal_of amt) as [eth|e]; [|discriminate].
  destruct (get_eth_price out w) as [[p|e] w1]; [|discriminate].
  destruct p as [rate|];
    [destruct (price_truthy (Some rate));
     [destruct (float_mul_num eth rate) as [usd|e]; simpl; [|discriminate]|]|];
    simpl; intros [= <-]; exists tok, coll, eth; eexists;
    repeat split; assumption.
Qed.

Lemma message_shape_sample :
  exists tok coll eth_amount usd_formatted,
    get_or no_token (s_token (a_sale (Present "0x01") "00042" 1.5)) = Some tok
    /\ get_or no_collection (t_collection tok) = Some coll
    /\ other_contract default_contract (get (t_contract tok)) = false
    /\ "Primitive #42 bought for 1.5000 Ξ [$2,737.50]" ++ newline ++ newline
         ++ "⤷https://opensea.io/assets/base/0x424d781e0163b5a42ca2f27d036c2d5c561022c3/00042"
       = render
           (if truthy (get (c_name coll)) then py_str (get (c_name coll))
            else "Primitive")
           (display_token_id (get (t_tokenId tok)) (get (t_name tok)))
           (if is_bid (a_sale (Present "0x01") "00042" 1.5)
            then "offer accepted for" else "bought for")
           eth_amount usd_formatted
           (get (t_contract tok)) (get (t_tokenId tok)).
Proof.
  apply (message_shape default_contract offline
           (a_sale (Present "0x01") "00042" 1.5) fresh).
  vm_compute. reflexivity.
Defined.

(** X9: [format_sale_message] never raises: whatever goes wrong inside
    comes out as [None].  It makes at most the two price requests and
    changes nothing else. *)
Theorem format_sale_message_never_raises ca out s w :
  exists r w',
    format_sale_message ca out s w = (Ok r, w')
    /\ same_store w w'
    /\ calls w <= calls w' <= calls w + 2.
Proof.
  assert (Hsame := only_ticks_format_sale_message ca out s w).
  unfold format_sale_message, try_except, bind, lift, ret in *.
  destruct (get_or no_token (s_token s)) as [tok|]; simpl in *;
    [|exists None, w; repeat split; try apply Hsame; lia].
  destruct (other_contract ca (get (t_contract tok)));
    [exists None, w; repeat split; try apply Hsame; lia|].
  destruct (get_or no_collection (t_collection tok)) as [coll|]; simpl in *;
    [|exists None, w; repeat split; try apply Hsame; lia].
  destruct (get_or no_price (s_price s)) as [pd|]; simpl in *;
    [|exists None, w; repeat split; try apply Hsame; lia].
  destruct (get_or no_amount (p_amount pd)) as [amt|]; simpl in *;
    [|exists None, w; repeat split; try apply Hsame; lia].
  destruct (decimal_of amt) as [eth|e];
    [|exists None, w; repeat split; try apply Hsame; lia].
  destruct (get_eth_price_outcome out w) as (p & w1 & Ep & _ & Hc).
  rewrite Ep in *.
  destruct p as [rate|];
    [destruct (price_truthy (Some rate));
     [destruct (float_mul_num eth rate) as [usd|e]|]|];
    simpl in *; eexists; exists w1; (split; [reflexivity|]);
    (split; [exact Hsame | lia]).
Qed.

(** ** What a cycle writes *)











(** ** Records that end an iteration early *)

(** X12: a record that is a duplicate, or whose contract is another one,
    is passed over before anything is fetched: the iteration makes no
    request and changes nothing. *)
Theorem skipped_records_cost_nothing ca out s l n w :
  key_in (sale_key s) l = true \/ other_contract ca (sale_contract s) = true ->
  process_sale ca out s (l, n) w = (Ok (l, n), w).
Proof.
  intros H. unfold process_sale. fold (sale_key s).
  destruct (key_in (sale_key s) l); [reflexivity|].
  destruct H as [H | H]; [discriminate|].
  unfold sale_contract in H. unfold bind at 1. unfold lift at 1.
  destruct (get_or no_token (s_token s)) as [tok|]; simpl; [|discriminate].
  now rewrite H.
Qed.

Lemma skipped_records_cost_nothing_sample :
  process_sale default_contract offline (a_sale (Present "0x01") "42" 1.5)
    ([Some "0x01"], 0) fresh
  = (Ok ([Some "0x01"], 0), fresh).
Proof.
  apply skipped_records_cost_nothing. left. reflexivity.
Defined.

(** X13: a record whose token entry is [null] and whose key is not on
    file makes [process_new_sales] raise [AttributeError]: the token is
    read outside any [try].  The records after it are not looked at and
    the loop of [main] ends there. *)
Theorem null_token_stops_the_loop ca slug out w s rest n :
  sales_v6 out (calls w)
  = Some {| status_code := 200;
            json := Some {| sales := Present (s :: rest) |} |} ->
  s_token s = Null ->
  key_in (sale_key s) (processed_sales_file w) = false ->
  process_new_sales ca slug out w = (Raise AttributeError, tick w)
  /\ main ca slug out (S n) w = (Raise AttributeError, tick w).
Proof.
  intros Hresp Htok Hkey.
  assert (E : process_new_sales ca slug out w = (Raise AttributeError, tick w)).
  { unfold process_new_sales, load_processed_sales.
    unfold bind at 1. unfold bind at 1.
    rewrite (fetch_recent_sales_primary ca slug out true w (s :: rest) Hresp)
      by discriminate.
    unfold bind at 1. simpl process_sales. unfold bind at 1.
    unfold process_sale. fold (sale_key s).
    change (processed_sales_file (tick w)) with (processed_sales_file w).
    rewrite Hkey, Htok. reflexivity. }
  split; [exact E|]. simpl. unfold bind. now rewrite E.
Qed.

Definition tokenless_sale : sale :=
  {| s_id := Absent; s_orderHash := Present "0x09"; s_orderSide := Absent;
     s_token := Null; s_price := Absent; s_timestamp := Absent |}.

Lemma null_token_stops_the_loop_sample :
  main default_contract None (feed [tokenless_sale; anonymous_sale]) 5 fresh
  = (Raise AttributeError, tick fresh).
Proof.
  refine (proj2 (null_token_stops_the_loop default_contract None
                   (feed [tokenless_sale; anonymous_sale]) fresh
                   tokenless_sale [anonymous_sale] 4 _ _ _));
    reflexivity.
Defined.

(** X14: when the three discovery endpoints are down the cycle returns 0
    after three requests; it writes nothing and hands nothing to
    Twitter. *)
Theorem idle_cycle ca slug out w :
  endpoint_down (sales_v6 out (calls w)) = true ->
  endpoint_down (tokens_activity_v5 out (S (calls w))) = true ->
  endpoint_down (orders_fills_v6 out (S (S (calls w)))) = true ->
  process_new_sales ca slug out w = (Ok 0, tick (tick (tick w))).
Proof.
  intros H1 H2 H3. unfold process_new_sales, load_processed_sales.
  unfold bind at 1. unfold bind at 1.
  now rewrite (fetch_recent_sales_down ca slug out w H1 H2 H3).
Qed.

Lemma idle_cycle_sample :
  process_new_sales default_contract None offline fresh
  = (Ok 0, tick (tick (tick fresh))).
Proof. apply idle_cycle; reflexivity. Defined.

(** ** Test mode *)

(** The [for sale_index, sale in enumerate(recent_sales)] loop of
    [test_post_last_sale]: [true] where the function returns [True],
    [false] where the loop runs out and it returns [False]. *)
Fixpoint post_first_sale (ca : string) (out : outside) (recent_sales : list sale)
  : M bool :=
  match recent_sales with
  | [] => ret false
  | s :: rest =>
      tok <- lift (deref AttributeError (get_or no_token (s_token s))) ;;
      let token_id := get (t_tokenId tok) in
      let contract_address := get (t_contract tok) in
      if other_contract ca contract_address then post_first_sale ca out rest
      else
        message <- format_sale_message ca out s ;;
        if truthy message then
          image_path <- download_nft_image out token_id contract_address ;;
          success <- post_to_twitter out (py_str message) image_path ;;
          if success then ret true else post_first_sale ca out rest
        else post_first_sale ca out rest
  end.

(** The [while attempt < max_attempts] loop, one look-back period per
    attempt.  The period only reaches a message and a local variable
    that [fetch_recent_sales] never uses, and the sleep between two
    attempts changes nothing the model observes. *)
Fixpoint test_attempts (ca : string) (slug : option string) (out : outside)
    (time_periods : list nat) : M bool :=
  match time_periods with
  | [] => ret false
  | days :: later =>
      recent_sales <- fetch_recent_sales ca slug out true ;;
      match recent_sales with
      | [] => test_attempts ca slug out later
      | _ => post_first_sale ca out recent_sales
      end
  end.

Definition test_post_last_sale (ca : string) (slug : option string) (out : outside)
  : M bool :=
  test_attempts ca slug out [365; 730; 1095].

(** What a run of test mode may have done to the world: nothing but
    calls, or one more text on the timeline. *)
Definition posted_at_most_one (w w' : world) (r : res bool) : Prop :=
  processed_sales_file w' = processed_sales_file w
  /\ attempts w' = attempts w
  /\ ((r = Ok true /\ exists m, timeline w' = (timeline w ++ [m])%list)
      \/ (r <> Ok true /\ timeline w' = timeline w)).

Lemma posted_at_most_one_after w w1 w' r :
  same_store w w1 -> posted_at_most_one w1 w' r -> posted_at_most_one w w' r.
Proof.
  intros (Sf & St & Sa) (Hf & Ha & Ht). unfold posted_at_most_one.
  rewrite Hf, Ha, Sf, Sa. repeat split.
  destruct Ht as [[Hr [m Hm]] | [Hr Hm]].
  - left. split; [exact Hr|]. exists m. now rewrite Hm, St.
  - right. split; [exact Hr|]. now rewrite Hm, St.
Qed.

Lemma post_first_sale_posts_one ca out l :
  forall w,
    posted_at_most_one w (snd (post_first_sale ca out l w))
      (fst (post_first_sale ca out l w)).
Proof.
  induction l as [|s rest IH]; intros w.
  - simpl. repeat split. right. split; [discriminate | reflexivity].
  - destruct (post_first_sale ca out (s :: rest) w) as [r w'] eqn:E.
    simpl fst. simpl snd. revert E. simpl post_first_sale.
    unfold bind at 1. unfold lift at 1.
    destruct (get_or no_token (s_token s)) as [tok|]; simpl deref; cbv iota beta.
    2:{ intros [= <- <-]. repeat split. right.
        split; [discriminate | reflexivity]. }
    destruct (other_contract ca (get (t_contract tok))).
    { intros E. specialize (IH w). now rewrite E in IH. }
    unfold bind at 1.
    destruct (format_sale_message_total ca out s w) as (msg & w1 & Hf).
    assert (Hs := only_ticks_format_sale_message ca out s w).
    rewrite Hf in *. simpl in Hs.
    destruct (truthy msg).
    2:{ intros E. specialize (IH w1). rewrite E in IH.
        exact (posted_at_most_one_after w w1 w' r Hs IH). }
    unfold bind at 1. unfold download_nft_image at 1.
    unfold bind at 1. unfold post_to_twitter at 1.
    cbv beta iota zeta.
    set (img := nft_image out (calls w1) (get (t_tokenId tok))
                  (get (t_contract tok))).
    set (w2 := tick w1).
    destruct (twitter_accepts out (calls w2) (py_str msg) img) eqn:Hok.
    + intros [= <- <-]. destruct Hs as (Sf & St & Sa).
      unfold posted_at_most_one. simpl. repeat split; try assumption.
      left. split; [reflexivity|]. exists (py_str msg). now rewrite St.
    + intros E.
      match type of E with
      | post_first_sale ca out rest ?w3 = _ =>
          specialize (IH w3); rewrite E in IH;
          apply (posted_at_most_one_after w w3 w' r); [|exact IH]
      end.
      destruct Hs as (Sf & St & Sa). repeat split; assumption.
Qed.

Lemma test_attempts_posts_one ca slug out periods :
  forall w,
    posted_at_most_one w (snd (test_attempts ca slug out periods w))
      (fst (test_attempts ca slug out periods w)).
Proof.
  induction periods as [|days later IH]; intros w.
  - simpl. repeat split. right. split; [discriminate | reflexivity].
  - destruct (test_attempts ca slug out (days :: later) w) as [r w'] eqn:E.
    simpl fst. simpl snd. revert E. simpl test_attempts. unfold bind at 1.
    assert (Hs := only_ticks_fetch_recent_sales ca slug out true w).
    destruct (fetch_recent_sales ca slug out true w) as [[recent|e] w1];
      simpl in Hs.
    2:{ intros [= <- <-]. destruct Hs as (Sf & St & Sa).
        repeat split; try assumption. right.
        split; [discriminate | assumption]. }
    destruct recent as [|s rest]; intros E.
    + specialize (IH w1). rewrite E in IH.
      exact (posted_at_most_one_after w w1 w' r Hs IH).
    + pose proof (post_first_sale_posts_one ca out (s :: rest) w1) as H.
      rewrite E in H.
      exact (posted_at_most_one_after w w1 w' r Hs H).
Qed.

(** X15: test mode never touches the processed-sales file.  It posts at
    most one tweet, and it returns [True] exactly when it posted one. *)
Theorem test_mode_leaves_the_store ca slug out w :
  let r := fst (test_post_last_sale ca slug out w) in
  let w' := snd (test_post_last_sale ca slug out w) in
  processed_sales_file w' = processed_sales_file w
  /\ (timeline w' = timeline w \/ exists m, timeline w' = (timeline w ++ [m])%list)
  /\ (r = Ok true <-> exists m, timeline w' = (timeline w ++ [m])%list).
Proof.
  intros r w'. subst r w'.
  destruct (test_attempts_posts_one ca slug out [365; 730; 1095] w)
    as (Hf & _ & Ht).
  fold (test_post_last_sale ca slug out) in *.
  split; [exact Hf|].
  destruct Ht as [[Hr [m Hm]] | [Hr Hm]].
  - split; [right; eauto|]. split; [eauto | intros _; exact Hr].
  - split; [now left|]. split; [intros C; contradiction|].
    intros [m Hm']. exfalso. rewrite Hm in Hm'.
    apply (f_equal (@length string)) in Hm'. rewrite length_app in Hm'.
    simpl in Hm'. lia.
Qed.




(** ** The image resolver *)

(** The bodies the two metadata services answer with. *)
Record token_meta : Type := { tm_image : field string }.
Record token_entry : Type := { te_token : field token_meta }.
Record tokens_page : Type := { tp_tokens : field (list token_entry) }.
Record nft_meta : Type := { nm_image_url : field string }.
Record opensea_page : Type := { op_nft : field nft_meta }.

Definition no_token_meta : token_meta := {| tm_image := Absent |}.
Definition no_nft_meta : nft_meta := {| nm_image_url := Absent |}.

(** What the services answer during one call of [download_nft_image];
    [None] where the request raises. *)
Record image_services : Type := {
  (** the tokens endpoint, by its [tokens] parameter *)
  tokens_v6 : string -> option (response tokens_page);
  (** the OpenSea endpoint, by its URL *)
  opensea_nft : string -> option (response opensea_page);
  (** the status of the first (0) or second (1) download of an image URL *)
  image_get : nat -> string -> option Z;
  (** whether the file at this path could be written *)
  image_saved : string -> bool
}.

(** How a block of the function ends: it returns a value, control goes
    on below it, or an exception leaves it. *)
Inductive ending (A : Type) : Type :=
| Returns (a : A)
| GoesOn
| Raises.
Arguments Returns {A} a.
Arguments GoesOn {A}.
Arguments Raises {A}.

(** [str(DATA_DIR / f"nft_{token_id}.jpg")], for a token id that holds no
    path separator. *)
Definition image_path_for (token_id : option string) : string :=
  "data/nft_" ++ py_str token_id ++ ".jpg".

Definition reservoir_tokens_url : string :=
  "https://api-base.reservoir.tools/tokens/v6".

Definition opensea_url (token_id contract_address : option string) : string :=
  "https://api.opensea.io/api/v2/chain/base/contract/"
    ++ py_str contract_address ++ "/nfts/" ++ py_str token_id.

(** [requests.get(image_url)] and, on 200, the write of the file.  Each
    function below returns its ending with the URLs it requested. *)
Definition download_and_save (svc : image_services) (k : nat)
    (token_id : option string) (image_url : string)
  : ending string * list string :=
  match image_get svc k image_url with
  | None => (Raises, [image_url])
  | Some status =>
      if (status =? 200)%Z then
        if image_saved svc (image_path_for token_id)
        then (Returns (image_path_for token_id), [image_url])
        else (Raises, [image_url])
      else (GoesOn, [image_url])
  end.

(** The part of [download_nft_image] before the fallback. *)
Definition image_from_reservoir (svc : image_services)
    (token_id contract_address : option string)
  : ending string * list string :=
  let url := reservoir_tokens_url in
  match tokens_v6 svc (py_str contract_address ++ ":" ++ py_str token_id) with
  | None => (Raises, [url])
  | Some response =>
      if (status_code response =? 200)%Z then
        match json response with
        | None => (Raises, [url])
        | Some token_data =>
            match get_or [] (tp_tokens token_data) with
            | Some (first :: _) =>
                match get_or no_token_meta (te_token first) with
                | None => (Raises, [url])
                | Some meta =>
                    let image_url := get (tm_image meta) in
                    if truthy image_url then
                      let '(e, requested) :=
                        download_and_save svc 0 token_id (py_str image_url) in
                      (e, url :: requested)
                    else (GoesOn, [url])
                end
            | _ => (GoesOn, [url])
            end
        end
      else (GoesOn, [url])
  end.

(** The inner [try] block: whatever raises in it ends in [None]. *)
Definition image_from_opensea (svc : image_services)
    (token_id contract_address : option string)
  : option string * list string :=
  let url := opensea_url token_id contract_address in
  match opensea_nft svc url with
  | None => (None, [url])
  | Some response =>
      if (status_code response =? 200)%Z then
        match json response with
        | None => (None, [url])
        | Some nft_data =>
            match get_or no_nft_meta (op_nft nft_data) with
            | None => (None, [url])
            | Some meta =>
                let image_url := get (nm_image_url meta) in
                if truthy image_url then
                  let '(e, requested) :=
                    download_and_save svc 1 token_id (py_str image_url) in
                  (match e with Returns p => Some p | _ => None end,
                   url :: requested)
                else (None, [url])
            end
        end
      else (None, [url])
  end.

(** [download_nft_image(token_id, contract_address)]: the path returned,
    with the URLs requested on the way. *)
Definition download_image (svc : image_services)
    (token_id contract_address : option string)
  : option string * list string :=
  match image_from_reservoir svc token_id contract_address with
  | (Returns p, requested) => (Some p, requested)
  | (Raises, requested) => (None, requested)
  | (GoesOn, requested) =>
      let '(r, more) := image_from_opensea svc token_id contract_address in
      (r, (requested ++ more)%list)
  end.

(** The oracle of the poll cycle, answered by the resolver. *)
Definition with_images (svc : nat -> image_services) (out : outside) : outside :=
  {| price_source := price_source out;
     sales_v6 := sales_v6 out;
     tokens_activity_v5 := tokens_activity_v5 out;
     orders_fills_v6 := orders_fills_v6 out;
     fromisoformat := fromisoformat out;
     clock := clock out;
     nft_image := fun n token_id contract_address =>
       fst (download_image (svc n) token_id contract_address);
     twitter_accepts := twitter_accepts out |}.



(** X18: when the request to the tokens endpoint raises, or its body is
    not JSON, [download_nft_image] returns [None] without asking OpenSea;
    when the endpoint answers with another status than 200, OpenSea is
    asked next. *)
Theorem failed_request_skips_the_fallback svc token_id contract_address :
  let tokens := tokens_v6 svc (py_str contract_address ++ ":" ++ py_str token_id) in
  (tokens = None
   \/ (exists r, tokens = Some r /\ status_code r = 200%Z /\ json r = None) ->
   download_image svc token_id contract_address = (None, [reservoir_tokens_url]))
  /\ (forall r, tokens = Some r -> status_code r <> 200%Z ->
      exists more,
        snd (download_image svc token_id contract_address)
        = reservoir_tokens_url :: opensea_url token_id contract_address :: more).
Proof.
  intros tokens. subst tokens. split.
  - unfold download_image, image_from_reservoir.
    intros [-> | (r & -> & Hs & Hj)]; [reflexivity|].
    rewrite Hs, Hj. reflexivity.
  - intros r Hr Hs. unfold download_image, image_from_reservoir.
    rewrite Hr. apply Z.eqb_neq in Hs. rewrite Hs.
    unfold image_from_opensea.
    destruct (opensea_nft svc _) as [response|]; [|eexists; reflexivity].
    destruct (status_code response =? 200)%Z; [|eexists; reflexivity].
    destruct (json response) as [nft_data|]; [|eexists; reflexivity].
    destruct (get_or no_nft_meta (op_nft nft_data)) as [meta|];
      [|eexists; reflexivity].
    destruct (truthy (get (nm_image_url meta))); [|eexists; reflexivity].
    destruct (download_and_save svc 1 token_id
                (py_str (get (nm_image_url meta)))) as [e reqs].
    eexists. reflexivity.
Qed.

(** Reservoir is unreachable; OpenSea knows the image and it downloads. *)
Definition opensea_only : image_services :=
  {| tokens_v6 := fun _ => None;
     opensea_nft := fun _ =>
       Some {| status_code := 200;
               json := Some {| op_nft := Present
                                 {| nm_image_url := Present "https://img/7.png" |} |} |};
     image_get := fun _ _ => Some 200%Z;
     image_saved := fun _ => true |}.



Lemma failed_request_skips_the_fallback_sample :
  download_image opensea_only (Some "7") (Some default_contract)
  = (None, [reservoir_tokens_url]).
Proof.
  apply (proj1 (failed_request_skips_the_fallback opensea_only (Some "7")
                  (Some default_contract))).
  left. reflexivity.
Defined.

Lemma download_nft_image_with_images svc out token_id contract_address w :
  download_nft_image (with_images svc out) token_id contract_address w
  = (Ok (fst (download_image (svc (calls w)) token_id contract_address)), tick w).
Proof. reflexivity. Qed.

(** ** The token-activity strategy *)

(** The sale made from one activity keeps its id, contract, token id and
    price. *)
Definition made_from (a : activity) (s : sale) : Prop :=
  s_id s = store (get (act_id a))
  /\ s_price s = store (get (act_price a))
  /\ sale_contract s = get (act_contract a)
  /\ (exists tok, s_token s = Present tok
                  /\ exists from, get_or no_token (act_token a) = Some from
                                  /\ get (t_tokenId tok) = get (t_tokenId from)).

Lemma get_store {A} (v : option A) : get (store v) = v.
Proof. now destruct v. Qed.

Lemma convert_activities_in_order l :
  forall converted,
    convert_activities l = Ok converted ->
    Forall2 made_from (filter is_sale l) converted.
Proof.
  induction l as [|a rest IH]; simpl; intros converted H.
  - injection H as <-. constructor.
  - destruct (is_sale a); [|now apply IH].
    unfold sale_of_activity in H.
    destruct (get_or no_token (act_token a)) as [from|] eqn:Ef;
      simpl in H; [|discriminate].
    destruct (convert_activities rest) as [c|e]; [|discriminate].
    injection H as <-. constructor; [|now apply IH].
    unfold made_from, sale_contract. simpl. rewrite !get_store.
    repeat split. eexists. split; [reflexivity|].
    exists from. split; [exact Ef|]. simpl. apply get_store.
Qed.

(** X19: what the token-activity strategy returns is made from the
    activities of type "sale", one sale for each, in the order of the
    response; each keeps the id, contract, token id and price of its
    activity.  Activities of another type are left out. *)
Theorem activity_sales_in_order out w acts l :
  tokens_activity_v5 out (calls w)
  = Some {| status_code := 200; json := Some {| activities := Present acts |} |} ->
  fst (activity_strategy out w) = Ok (Some l) ->
  Forall2 made_from (filter is_sale acts) l.
Proof.
  intros Hresp. unfold activity_strategy, try_except, bind, requests_get,
    response_json, lift, ret.
  rewrite Hresp. simpl.
  pose proof (convert_activities_in_order acts) as H.
  destruct (convert_activities acts) as [[|s rest]|e]; simpl; try discriminate.
  intros [= <-]. now apply H.
Qed.

Definition a_listing : activity :=
  {| act_type := Present "ask";
     act_id := Present "a0";
     act_token := Present (a_token "9");
     act_contract := Present default_contract;
     act_price := Absent |}.

Lemma activity_sales_in_order_sample :
  Forall2 made_from
    (filter is_sale [a_listing; an_activity "1"; an_activity "2"])
    [ {| s_id := Present "a1"; s_orderHash := Absent; s_orderSide := Present "ask";
         s_token := Present {| t_contract := Present default_contract;
                               t_tokenId := Present "1";
                               t_name := Absent; t_collection := Absent |};
         s_price := Present (a_price 1.5); s_timestamp := Absent |};
      {| s_id := Present "a1"; s_orderHash := Absent; s_orderSide := Present "ask";
         s_token := Present {| t_contract := Present default_contract;
                               t_tokenId := Present "2";
                               t_name := Absent; t_collection := Absent |};
         s_price := Present (a_price 1.5); s_timestamp := Absent |} ].
Proof.
  apply (activity_sales_in_order
           (activity_feed [a_listing; an_activity "1"; an_activity "2"]) fresh
           [a_listing; an_activity "1"; an_activity "2"]);
    reflexivity.
Defined.





(** ** The pause after a cycle *)





